(** * aarch64_vm: the Ansible module that creates and deletes aarch64 VMs

    A shallow embedding of [library/aarch64_vm.py]: the [Aarch64Client]
    class with its [_req] method and the six operations built on it, and
    the command handler [main].

    Python values are an inductive type; dictionaries are finite maps.
    The code raises and catches exceptions, so every expression is a
    computation in an exception monad; the handler also issues HTTP
    requests and mutates its local [result] dictionary, so statements
    are computations in a state-and-exception monad whose state is the
    [result] variable and the log of requests sent so far. *)

From Stdlib Require Import ZArith String Ascii DecimalString SpecFloat.
From stdpp Require Import gmap strings list fin_maps.

Local Open Scope string_scope.

(** ** Python values *)

(** The values that flow through the module: what [resp.json()] can
    return, and the [str]-or-[None] parameters Ansible hands over. *)
#[warnings="-register-all"]
Inductive pyval : Type :=
| PyNone
| PyBool (b : bool)
| PyInt (n : Z)
| PyFloat (f : spec_float)
| PyStr (s : string)
| PyList (l : list pyval)
| PyDict (d : gmap string pyval).

(** Truth value of an object, as tested by [if not x]. *)
Definition truthy (v : pyval) : bool :=
  match v with
  | PyNone => false
  | PyBool b => b
  | PyInt n => negb (n =? 0)%Z
  | PyFloat (S754_zero _) => false
  | PyFloat _ => true
  | PyStr s => negb (String.eqb s "")
  | PyList l => match l with [] => false | _ => true end
  | PyDict d => negb (bool_decide (d = ∅))
  end.

(** [x == {}]: only the empty dictionary equals the empty dictionary. *)
Definition is_empty_dict (v : pyval) : bool :=
  match v with
  | PyDict d => bool_decide (d = ∅)
  | _ => false
  end.

(** A module parameter declared [type="str", required=False] is a
    string, or [None] when the playbook leaves it out. *)
Definition of_param (o : option string) : pyval :=
  match o with
  | Some s => PyStr s
  | None => PyNone
  end.

(** [x == p] for a parameter [p]: a string equals only the same string,
    [None] equals only [None]. *)
Definition eq_param (x : pyval) (p : option string) : bool :=
  match x, p with
  | PyStr s, Some t => String.eqb s t
  | PyNone, None => true
  | _, _ => false
  end.

(** [str(n)] for an integer. *)
Definition str_int (n : Z) : string := NilZero.string_of_int (Z.to_int n).

(** [str(p)] for a parameter, as an f-string formats it. *)
Definition str_param (o : option string) : string :=
  match o with
  | Some s => s
  | None => "None"
  end.

(** ** Exceptions *)

(** What [module.exit_json] and [module.fail_json] hand back to Ansible:
    the keyword arguments of the call. Both then leave the process. *)
Inductive output : Type :=
| ExitJson (kwargs : gmap string pyval)
| FailJson (kwargs : gmap string pyval).

Inductive exn : Type :=
| ApiException (message : pyval)
| KeyError (key : string)
| TypeError
| JSONDecodeError
| RequestException
| SystemExit (out : output).

Inductive res (A : Type) : Type :=
| Val (a : A)
| Raise (e : exn).
Arguments Val {A} a.
Arguments Raise {A} e.

#[global] Instance res_ret : MRet res := @Val.
#[global] Instance res_bind : MBind res := fun A B f r =>
  match r with
  | Val a => f a
  | Raise e => Raise e
  end.

(** [v[k]] for a string key [k]: only a dictionary can be subscripted
    by a string, and the key must be there. *)
Definition getitem (v : pyval) (k : string) : res pyval :=
  match v with
  | PyDict d =>
      match d !! k with
      | Some x => Val x
      | None => Raise (KeyError k)
      end
  | _ => Raise TypeError
  end.

(** The items a [for] loop walks through. A string yields its
    characters and a dictionary its keys (the order of the keys plays no
    role below: each one is a string). *)
Definition py_iter (v : pyval) : res (list pyval) :=
  match v with
  | PyList l => Val l
  | PyStr s => Val ((fun c => PyStr (String c "")) <$> list_ascii_of_string s)
  | PyDict d => Val (PyStr <$> (map_to_list d).*1)
  | _ => Raise TypeError
  end.

(** ** The HTTP transport *)

(** The arguments of one [requests.request] call. *)
Record request : Type := Request {
  method : string;
  url : string;
  json : option pyval;
  headers : gmap string string
}.

(** A response: its status code and what [resp.json()] decodes the body
    to, [None] when the body is not JSON. *)
Record response : Type := Response {
  status_code : Z;
  content : option pyval
}.

(** [resp.json()] *)
Definition resp_json (resp : response) : res pyval :=
  match content resp with
  | Some v => Val v
  | None => Raise JSONDecodeError
  end.

(** The API server as seen through [requests]: from the requests sent
    before and the current one to the response, or to no response at all
    (connection refused, timeout, ...). *)
Definition upstream : Type := list request -> request -> option response.

(** ** The monad of the handler *)

Record mstate : Type := MState {
  result : gmap string pyval;
  log : list request
}.

Definition M (A : Type) : Type := upstream -> mstate -> res A * mstate.

#[global] Instance M_ret : MRet M := fun A a _ st => (Val a, st).
#[global] Instance M_bind : MBind M := fun A B f c up st =>
  match c up st with
  | (Val a, st') => f a up st'
  | (Raise e, st') => (Raise e, st')
  end.

Definition lift {A} (r : res A) : M A := fun _ st => (r, st).

Definition raise {A} (e : exn) : M A := fun _ st => (Raise e, st).

(** [try: c / except ApiException as e: handler / else: orelse] *)
Definition try_except_else {A B} (c : M A) (handler : pyval -> M B)
    (orelse : A -> M B) : M B := fun up st =>
  match c up st with
  | (Val a, st') => orelse a up st'
  | (Raise (ApiException message), st') => handler message up st'
  | (Raise e, st') => (Raise e, st')
  end.

(** [requests.request(method, url, json=body, headers=...)] *)
Definition requests_request (r : request) : M response := fun up st =>
  (match up (log st) r with
   | Some resp => Val resp
   | None => Raise RequestException
   end,
   MState (result st) (log st ++ [r])).

(** [result = d] and [result[k] = v] *)
Definition set_result (d : gmap string pyval) : M unit := fun _ st =>
  (Val tt, MState d (log st)).

Definition set_item (k : string) (v : pyval) : M unit := fun _ st =>
  (Val tt, MState (<[k := v]> (result st)) (log st)).

Definition get_result : M (gmap string pyval) := fun _ st =>
  (Val (result st), st).

(** ** class ApiException *)

(** [str(e)], which [f"...{e}"] calls: [__str__] returns [self.message],
    and Python rejects anything but a string there. *)
Definition exn_str (message : pyval) : res string :=
  match message with
  | PyStr s => Val s
  | _ => Raise TypeError
  end.

(** ** class Aarch64Client *)

Record Aarch64Client : Type := Client {
  api_key : string;
  server : string
}.

Definition new_client (key : string) : Aarch64Client :=
  Client key "https://console.aarch64.com/api".

(** [resp.json()["meta"][k]] *)
Definition meta_field (resp : response) (k : string) : res pyval :=
  j ← resp_json resp;
  meta ← getitem j "meta";
  getitem meta k.

(** [resp.json()["data"]] *)
Definition data_field (resp : response) : res pyval :=
  j ← resp_json resp;
  getitem j "data".

Definition _req (self : Aarch64Client) (meth endpoint : string)
    (body : option pyval) : M response :=
  resp ← requests_request
    (Request meth (server self ++ endpoint) body
       {["Authorization" := api_key self]});
  if negb (status_code resp =? 200)%Z then
    raise (ApiException
             (PyStr ("API returned HTTP " ++ str_int (status_code resp))))
  else
    success ← lift (meta_field resp "success");
    if negb (truthy success) then
      message ← lift (meta_field resp "message");
      raise (ApiException message)
    else
      mret resp.

Definition projects (self : Aarch64Client) : M response :=
  _req self "GET" "/projects" None.

Definition create_project (self : Aarch64Client) (name : pyval) : M response :=
  _req self "POST" "/project" (Some (PyDict {["name" := name]})).

Definition add_user (self : Aarch64Client) (project_id email : pyval)
    : M response :=
  _req self "POST" "/project/adduser"
    (Some (PyDict {["project" := project_id; "email" := email]})).

Definition create_vm (self : Aarch64Client)
    (hostname pop project_id plan os : pyval) : M response :=
  _req self "POST" "/vms/create"
    (Some (PyDict {["hostname" := hostname;
                    "pop" := pop;
                    "project" := project_id;
                    "plan" := plan;
                    "os" := os]})).

Definition delete_vm (self : Aarch64Client) (vm : pyval) : M response :=
  _req self "DELETE" "/vms/delete" (Some (PyDict {["vm" := vm]})).

Definition get_system (self : Aarch64Client) : M response :=
  _req self "GET" "/system" None.

(** The six operations of the client, to speak of all of them at once. *)
Inductive operation : Type :=
| OpProjects
| OpCreateProject (name : pyval)
| OpAddUser (project_id email : pyval)
| OpCreateVm (hostname pop project_id plan os : pyval)
| OpDeleteVm (vm : pyval)
| OpGetSystem.

Definition call (self : Aarch64Client) (op : operation) : M response :=
  match op with
  | OpProjects => projects self
  | OpCreateProject name => create_project self name
  | OpAddUser project_id email => add_user self project_id email
  | OpCreateVm hostname pop project_id plan os =>
      create_vm self hostname pop project_id plan os
  | OpDeleteVm vm => delete_vm self vm
  | OpGetSystem => get_system self
  end.

(** The request an operation sends. *)
Definition request_of (self : Aarch64Client) (op : operation) : request :=
  let mk meth endpoint body :=
    Request meth (server self ++ endpoint) body
      {["Authorization" := api_key self]} in
  match op with
  | OpProjects => mk "GET" "/projects" None
  | OpCreateProject name =>
      mk "POST" "/project" (Some (PyDict {["name" := name]}))
  | OpAddUser project_id email =>
      mk "POST" "/project/adduser"
        (Some (PyDict {["project" := project_id; "email" := email]}))
  | OpCreateVm hostname pop project_id plan os =>
      mk "POST" "/vms/create"
        (Some (PyDict {["hostname" := hostname; "pop" := pop;
                        "project" := project_id; "plan" := plan;
                        "os" := os]}))
  | OpDeleteVm vm => mk "DELETE" "/vms/delete" (Some (PyDict {["vm" := vm]}))
  | OpGetSystem => mk "GET" "/system" None
  end.

(** ** main *)

Inductive state : Type := present | absent.

(** [module.params], as the argument spec types it. *)
Record params : Type := Params {
  param_api_key : string;
  param_id : option string;
  param_hostname : option string;
  param_project : option string;
  param_plan : option string;
  param_os : option string;
  param_pop : option string;
  param_state : state
}.

Definition fail_json {A} (msg : string) : M A :=
  raise (SystemExit (FailJson {["msg" := PyStr msg]})).

Definition exit_json {A} (kwargs : gmap string pyval) : M A :=
  raise (SystemExit (ExitJson kwargs)).

(** The test of the loop: [_project["_id"] == module.params["project"]] *)
Definition matches (wanted : option string) (_project : pyval) : res bool :=
  id ← getitem _project "_id";
  mret (eq_param id wanted).

(** The loop over the projects: [project] is overwritten at every record
    whose [_id] equals the requested one, and the loop runs to the end. *)
Fixpoint scan (wanted : option string) (items : list pyval) (project : pyval)
    : res pyval :=
  match items with
  | [] => Val project
  | _project :: rest =>
      found ← matches wanted _project;
      scan wanted rest (if (found : bool) then _project else project)
  end.

Definition create_branch (client : Aarch64Client) (p : params) : M unit :=
  try_except_else
    (create_vm client (of_param (param_hostname p)) (of_param (param_pop p))
       (of_param (param_project p)) (of_param (param_plan p))
       (of_param (param_os p)))
    (fun e =>
       s ← lift (exn_str e);
       fail_json ("Unable to create VM: " ++ s))
    (fun create_request =>
       vm ← lift (data_field create_request);
       set_item "vm" vm;;
       message ← lift (meta_field create_request "message");
       set_item "message" message;;
       set_item "changed" (PyBool true)).

Definition present_branch (client : Aarch64Client) (p : params) : M unit :=
  try_except_else (projects client)
    (fun e =>
       s ← lift (exn_str e);
       fail_json ("Unable to get projects: " ++ s))
    (fun projects_request =>
       data ← lift (data_field projects_request);
       items ← lift (py_iter data);
       project ← lift (scan (param_project p) items (PyDict ∅));
       (if is_empty_dict project then
          fail_json ("Unable to find project with id "
                     ++ str_param (param_project p))
        else mret tt);;
       create_branch client p).

Definition absent_branch (client : Aarch64Client) (p : params) : M unit :=
  try_except_else (delete_vm client (of_param (param_id p)))
    (fun e =>
       s ← lift (exn_str e);
       fail_json ("Unable to delete VM: " ++ s))
    (fun delete_request =>
       message ← lift (meta_field delete_request "message");
       set_item "message" message;;
       set_item "changed" (PyBool true)).

(** [module.exit_json], called with the entries of [result] as keywords *)
Definition finish : M unit :=
  kwargs ← get_result;
  exit_json kwargs.

Definition main (p : params) : M unit :=
  set_result {["changed" := PyBool false]};;
  let client := new_client (param_api_key p) in
  match param_state p with
  | present => present_branch client p
  | absent => absent_branch client p
  end;;
  finish.

(** One run of the module: nothing sent yet, [result] not yet bound. *)
Definition run (up : upstream) (p : params) : res unit * mstate :=
  main p up (MState ∅ []).

(** ** Vocabulary of the statements *)

(** [sub] occurs somewhere inside [s]. *)
Definition occurs_in (sub s : string) : Prop :=
  exists pre post, s = pre ++ sub ++ post.

(** The exceptions nothing in the module catches. *)
Definition crash (e : exn) : Prop :=
  match e with
  | KeyError _ | TypeError | JSONDecodeError | RequestException => True
  | ApiException _ | SystemExit _ => False
  end.

(** The exception [fail_json(msg=...)] leaves with. *)
Definition failure (msg : string) : exn :=
  SystemExit (FailJson {["msg" := PyStr msg]}).

(** The openings of the four failure messages. *)
Definition prefixes : list string :=
  ["Unable to get projects: "; "Unable to find project with id ";
   "Unable to create VM: "; "Unable to delete VM: "].

(** [result] as long as nothing was changed, and the state once
    [result = {"changed": False}] has run. *)
Definition unchanged : gmap string pyval := {["changed" := PyBool false]}.

Definition init : mstate := MState unchanged [].

(** A project record: a dictionary that has an [_id]. *)
Definition has_id (r : pyval) : Prop :=
  exists id, getitem r "_id" = Val id.

(** The requested project is among the records: the test of the loop
    holds at one of them. *)
Definition listed_in (wanted : option string) (records : list pyval) : Prop :=
  Exists (fun r => matches wanted r = Val true) records.

(** The same, said of the records themselves and not through the test of
    the loop: the record is a dictionary whose [_id] is the requested
    identifier, the string of the parameter, or [None] when the
    parameter is left out. *)
Definition has_requested_id (wanted : option string) (r : pyval) : Prop :=
  exists d, r = PyDict d /\ d !! "_id" = Some (of_param wanted).

Definition requested_among (wanted : option string) (records : list pyval)
    : Prop :=
  Exists (has_requested_id wanted) records.

(** The same, computed. *)
Definition is_wanted (wanted : option string) (_project : pyval) : bool :=
  match matches wanted _project with
  | Val found => found
  | Raise _ => false
  end.

(** The client the handler builds, the operations it calls, the
    requests they send, and the state after the list request. *)
Definition client_of (p : params) : Aarch64Client :=
  new_client (param_api_key p).

Definition create_op (p : params) : operation :=
  OpCreateVm (of_param (param_hostname p)) (of_param (param_pop p))
    (of_param (param_project p)) (of_param (param_plan p))
    (of_param (param_os p)).

Definition delete_op (p : params) : operation :=
  OpDeleteVm (of_param (param_id p)).

Definition list_request (p : params) : request :=
  request_of (client_of p) OpProjects.

Definition create_request (p : params) : request :=
  request_of (client_of p) (create_op p).

Definition delete_request (p : params) : request :=
  request_of (client_of p) (delete_op p).

Definition listed (p : params) : mstate := MState unchanged [list_request p].

(** The sequences of requests a run can send. *)
Definition sends (p : params) (sent : list request) : Prop :=
  match param_state p with
  | present => sent = [list_request p] \/
               sent = [list_request p; create_request p]
  | absent => sent = [delete_request p]
  end.

(** The ways a run can end: in a crash or in one of the four failure
    documents, with nothing changed; after the VM was created, with the
    VM and the message in [result], or in a crash for lack of a message;
    after the VM was deleted. *)
Inductive shape (up : upstream) (p : params) : res unit * mstate -> Prop :=
| shape_crash e sent :
    crash e ->
    sends p sent ->
    shape up p (Raise e, MState unchanged sent)
| shape_list_failed detail :
    param_state p = present ->
    shape up p
      (Raise (failure ("Unable to get projects: " ++ detail)), listed p)
| shape_not_found resp data items project :
    param_state p = present ->
    (call (client_of p) OpProjects up init).1 = Val resp ->
    data_field resp = Val data ->
    py_iter data = Val items ->
    scan (param_project p) items (PyDict ∅) = Val project ->
    is_empty_dict project = true ->
    shape up p
      (Raise (failure ("Unable to find project with id "
                       ++ str_param (param_project p))),
       listed p)
| shape_create_failed detail :
    param_state p = present ->
    shape up p
      (Raise (failure ("Unable to create VM: " ++ detail)),
       MState unchanged [list_request p; create_request p])
| shape_delete_failed detail :
    param_state p = absent ->
    shape up p
      (Raise (failure ("Unable to delete VM: " ++ detail)),
       MState unchanged [delete_request p])
| shape_created_crash cresp vm e :
    param_state p = present ->
    (call (client_of p) (create_op p) up (listed p)).1 = Val cresp ->
    data_field cresp = Val vm ->
    crash e ->
    shape up p
      (Raise e,
       MState (<["vm" := vm]> unchanged) [list_request p; create_request p])
| shape_created cresp vm message :
    param_state p = present ->
    (call (client_of p) (create_op p) up (listed p)).1 = Val cresp ->
    data_field cresp = Val vm ->
    meta_field cresp "message" = Val message ->
    shape up p
      (Raise (SystemExit
                (ExitJson {["changed" := PyBool true; "vm" := vm;
                            "message" := message]})),
       MState {["changed" := PyBool true; "vm" := vm; "message" := message]}
         [list_request p; create_request p])
| shape_deleted message :
    param_state p = absent ->
    shape up p
      (Raise (SystemExit
                (ExitJson {["changed" := PyBool true; "message" := message]})),
       MState {["changed" := PyBool true; "message" := message]}
         [delete_request p]).

(** ** Sample API servers and invocations *)

(** The envelope the API wraps every answer in. *)
Definition envelope (success message data : pyval) : pyval :=
  PyDict {["meta" := PyDict {["success" := success; "message" := message]};
           "data" := data]}.

Definition demo_records : list pyval :=
  [PyDict {["_id" := PyStr "p0"]}; PyDict {["_id" := PyStr "p1"]}].

Definition demo_vm : pyval := PyDict {["_id" := PyStr "v1"]}.

Definition demo_listing : response :=
  Response 200 (Some (envelope (PyBool true) (PyStr "ok") (PyList demo_records))).

Definition demo_creation : response :=
  Response 200 (Some (envelope (PyBool true) (PyStr "VM created") demo_vm)).

Definition demo_deletion : response :=
  Response 200 (Some (envelope (PyBool true) (PyStr "VM deleted") PyNone)).

(** A server that knows projects [p0] and [p1], creates VM [v1] and
    deletes whatever it is asked to. *)
Definition demo_upstream : upstream := fun _ r =>
  if String.eqb (url r) "https://console.aarch64.com/api/projects" then
    Some demo_listing
  else if String.eqb (url r) "https://console.aarch64.com/api/vms/create" then
    Some demo_creation
  else if String.eqb (url r) "https://console.aarch64.com/api/vms/delete" then
    Some demo_deletion
  else Some (Response 404 None).

(** A server that answers every request with the same response. *)
Definition const_upstream (resp : response) : upstream := fun _ _ => Some resp.

(** A server that answers the first request like [demo_upstream] and
    every later one with [resp]. *)
Definition then_upstream (resp : response) : upstream := fun sent r =>
  match sent with
  | [] => demo_upstream sent r
  | _ => Some resp
  end.

(** The API declines, with a message. *)
Definition refusal (message : string) : response :=
  Response 200 (Some (envelope (PyBool false) (PyStr message) PyNone)).

Definition demo_create : params :=
  Params "key" None (Some "h") (Some "p1") (Some "v1.small") (Some "debian")
    (Some "dfw") present.

Definition demo_create_unknown : params :=
  Params "key" None (Some "h") (Some "p9") (Some "v1.small") (Some "debian")
    (Some "dfw") present.

Definition demo_delete : params :=
  Params "key" (Some "v1") None None None None None absent.

(** ** More vocabulary: the first call of a run *)

(** The operation a run starts with, and its request. *)
Definition first_op (p : params) : operation :=
  match param_state p with
  | present => OpProjects
  | absent => delete_op p
  end.

Definition first_request (p : params) : request :=
  request_of (client_of p) (first_op p).

(** The opening of the failure message of the first step. *)
Definition first_prefix (p : params) : string :=
  match param_state p with
  | present => "Unable to get projects: "
  | absent => "Unable to delete VM: "
  end.

(** The lookup of the [present] branch as one expression: the [data] of
    the list response, walked through by the loop. *)
Definition find_project (wanted : option string) (resp : response)
    : res pyval :=
  data ← data_field resp;
  items ← py_iter data;
  scan wanted items (PyDict ∅).

(** Two invocations agree on the parameters the [absent] branch reads,
    or on those the [present] branch reads. *)
Definition same_delete (p q : params) : Prop :=
  param_api_key p = param_api_key q /\ param_id p = param_id q.

Definition same_create (p q : params) : Prop :=
  param_api_key p = param_api_key q /\
  param_hostname p = param_hostname q /\
  param_project p = param_project q /\
  param_plan p = param_plan q /\
  param_os p = param_os q /\
  param_pop p = param_pop q.

(** A server that never answers. *)
Definition silent_upstream : upstream := fun _ _ => None.

(** A server that lists [records] and answers [resp] to whatever
    follows. *)
Definition listing_upstream (records : pyval) (resp : response) : upstream :=
  fun sent _ =>
    match sent with
    | [] => Some (Response 200
                    (Some (envelope (PyBool true) (PyStr "ok") records)))
    | _ => Some resp
    end.

Definition demo_create_any : params :=
  Params "key" None (Some "h") None (Some "v1.small") (Some "debian")
    (Some "dfw") present.

(** * Properties *)

Ltac munfold :=
  unfold fail_json, exit_json, failure in *;
  unfold mbind, mret, M_bind, M_ret, res_bind, res_ret, lift, raise,
    try_except_else, requests_request, set_item, set_result, get_result in *.

(** ** The client *)

Section Req.
Variables (self : Aarch64Client) (meth endpoint : string)
  (body : option pyval) (up : upstream) (st : mstate).

Let sent : request :=
  Request meth (server self ++ endpoint) body
    {["Authorization" := api_key self]}.

Let after : mstate := MState (result st) (log st ++ [sent]).

(** Whatever happens, [_req] sends one request and leaves [result] alone. *)
Lemma req_state : (_req self meth endpoint body up st).2 = after.
Proof.
  unfold _req. munfold. simpl.
  destruct (up (log st) _); [|reflexivity].
  destruct (negb _); [reflexivity|].
  destruct (meta_field r "success"); [|reflexivity].
  destruct (negb _); [|reflexivity].
  destruct (meta_field r "message"); reflexivity.
Qed.

Lemma req_no_reply :
  up (log st) sent = None ->
  _req self meth endpoint body up st = (Raise RequestException, after).
Proof.
  intros H. unfold _req. munfold. simpl. fold sent. rewrite H. reflexivity.
Qed.

Lemma req_status resp :
  up (log st) sent = Some resp ->
  status_code resp <> 200%Z ->
  _req self meth endpoint body up st =
    (Raise (ApiException
              (PyStr ("API returned HTTP " ++ str_int (status_code resp)))),
     after).
Proof.
  intros H Hne. unfold _req. munfold. simpl. fold sent. rewrite H.
  apply Z.eqb_neq in Hne. rewrite Hne. reflexivity.
Qed.

Lemma req_refused resp success message :
  up (log st) sent = Some resp ->
  status_code resp = 200%Z ->
  meta_field resp "success" = Val success ->
  truthy success = false ->
  meta_field resp "message" = Val message ->
  _req self meth endpoint body up st = (Raise (ApiException message), after).
Proof.
  intros H H200 Hs Ht Hm. unfold _req. munfold. simpl. fold sent.
  rewrite H, H200, Hs, Ht, Hm. reflexivity.
Qed.

Lemma req_ok resp success :
  up (log st) sent = Some resp ->
  status_code resp = 200%Z ->
  meta_field resp "success" = Val success ->
  truthy success = true ->
  _req self meth endpoint body up st = (Val resp, after).
Proof.
  intros H H200 Hs Ht. unfold _req. munfold. simpl. fold sent.
  rewrite H, H200, Hs, Ht. reflexivity.
Qed.

(** A response is returned only if the server sent it with status 200
    and a true success flag. *)
Lemma req_val_inv resp :
  (_req self meth endpoint body up st).1 = Val resp ->
  up (log st) sent = Some resp /\ status_code resp = 200%Z /\
  exists success,
    meta_field resp "success" = Val success /\ truthy success = true.
Proof.
  unfold _req. munfold. simpl. fold sent.
  destruct (up (log st) sent) as [r|]; [|discriminate].
  destruct (Z.eqb_spec (status_code r) 200); simpl; [|discriminate].
  destruct (meta_field r "success") as [s|] eqn:Hs; [|discriminate].
  destruct (truthy s) eqn:Ht; simpl.
  - intros [= ->]. eauto.
  - destruct (meta_field r "message"); discriminate.
Qed.
End Req.

(** The same facts for the six operations. *)
Section Call.
Variables (self : Aarch64Client) (op : operation) (up : upstream)
  (st : mstate).

Let after : mstate := MState (result st) (log st ++ [request_of self op]).

Lemma call_state : (call self op up st).2 = after.
Proof. destruct op; apply req_state. Qed.

Lemma call_no_reply :
  up (log st) (request_of self op) = None ->
  call self op up st = (Raise RequestException, after).
Proof. destruct op; apply req_no_reply. Qed.

Lemma call_status resp :
  up (log st) (request_of self op) = Some resp ->
  status_code resp <> 200%Z ->
  call self op up st =
    (Raise (ApiException
              (PyStr ("API returned HTTP " ++ str_int (status_code resp)))),
     after).
Proof. destruct op; apply req_status. Qed.

Lemma call_refused resp success message :
  up (log st) (request_of self op) = Some resp ->
  status_code resp = 200%Z ->
  meta_field resp "success" = Val success ->
  truthy success = false ->
  meta_field resp "message" = Val message ->
  call self op up st = (Raise (ApiException message), after).
Proof. destruct op; apply req_refused. Qed.

Lemma call_ok resp success :
  up (log st) (request_of self op) = Some resp ->
  status_code resp = 200%Z ->
  meta_field resp "success" = Val success ->
  truthy success = true ->
  call self op up st = (Val resp, after).
Proof. destruct op; apply req_ok. Qed.

Lemma call_val_inv resp :
  (call self op up st).1 = Val resp ->
  up (log st) (request_of self op) = Some resp /\
  status_code resp = 200%Z /\
  exists success,
    meta_field resp "success" = Val success /\ truthy success = true.
Proof. destruct op; apply req_val_inv. Qed.
End Call.

Lemma call_pair self op up st :
  call self op up st =
    ((call self op up st).1,
     MState (result st) (log st ++ [request_of self op])).
Proof. rewrite <- (call_state self op up st). by destruct (call self op up st). Qed.

(** ** Exceptions that can reach the handler *)

Lemma getitem_raise v k e : getitem v k = Raise e -> crash e.
Proof.
  unfold getitem. repeat case_match; intros [= <-]; exact I.
Qed.

Lemma meta_field_raise resp k e : meta_field resp k = Raise e -> crash e.
Proof.
  unfold meta_field, resp_json. munfold.
  destruct (content resp) as [j|]; [|by intros [= <-]].
  destruct (getitem j "meta") eqn:H; [apply getitem_raise|].
  intros [= <-]. by eapply getitem_raise.
Qed.

Lemma data_field_raise resp e : data_field resp = Raise e -> crash e.
Proof.
  unfold data_field, resp_json. munfold.
  destruct (content resp) as [j|]; [apply getitem_raise | by intros [= <-]].
Qed.

Lemma py_iter_raise v e : py_iter v = Raise e -> crash e.
Proof. destruct v; intros [= <-]; exact I. Qed.

Lemma scan_raise wanted items project e :
  scan wanted items project = Raise e -> crash e.
Proof.
  revert project. induction items as [|r items IH]; intros project;
    [discriminate|].
  simpl. unfold matches at 1. munfold.
  destruct (getitem r "_id") eqn:H; [apply IH|].
  intros [= <-]. by eapply getitem_raise.
Qed.

Lemma exn_str_raise message e : exn_str message = Raise e -> crash e.
Proof. destruct message; intros [= <-]; exact I. Qed.

(** An operation raises [ApiException] or crashes; it never leaves the
    process. *)
Lemma req_raise self meth endpoint body up st e :
  (_req self meth endpoint body up st).1 = Raise e ->
  crash e \/ exists message, e = ApiException message.
Proof.
  unfold _req. munfold. simpl.
  destruct (up (log st) _) as [resp|]; [|intros [= <-]; by left].
  destruct (negb _); [intros [= <-]; eauto|].
  destruct (meta_field resp "success") eqn:Hs;
    [|intros [= <-]; left; by eapply meta_field_raise].
  destruct (negb _); [|discriminate].
  destruct (meta_field resp "message") eqn:Hm; intros [= <-]; [eauto|].
  left. by eapply meta_field_raise.
Qed.

Lemma call_raise self op up st e :
  (call self op up st).1 = Raise e ->
  crash e \/ exists message, e = ApiException message.
Proof. destruct op; apply req_raise. Qed.


Lemma append_empty_r (s : string) : s ++ "" = s.
Proof.
  induction s as [|c s IH]; [reflexivity|].
  change (String c (s ++ "") = String c s). by rewrite IH.
Qed.


(** ** The scan of the project list *)

Lemma has_id_matches wanted r :
  has_id r <-> exists found, matches wanted r = Val found.
Proof.
  unfold has_id, matches. munfold. split.
  - intros [id ->]. eauto.
  - intros [found H]. destruct (getitem r "_id"); [eauto | discriminate].
Qed.

(** A record the loop can test is a dictionary that has the key [_id];
    it is therefore not the empty dictionary. *)
Lemma has_id_not_empty r : has_id r -> is_empty_dict r = false.
Proof.
  unfold has_id, getitem. intros [id H].
  destruct r as [| | | | | |d]; try discriminate. simpl.
  destruct (d !! "_id") eqn:Hid; [|discriminate].
  apply bool_decide_eq_false. intros ->. by rewrite lookup_empty in Hid.
Qed.

Lemma last_default (x d d' : pyval) (l : list pyval) :
  List.last (x :: l) d = List.last (x :: l) d'.
Proof.
  revert x. induction l as [|y l IH]; intros x; [reflexivity|].
  change (List.last (y :: l) d = List.last (y :: l) d'). apply IH.
Qed.

Lemma last_cons (r d : pyval) (l : list pyval) :
  List.last (r :: l) d = List.last l r.
Proof.
  destruct l as [|x l]; [reflexivity|].
  change (List.last (x :: l) d = List.last (x :: l) r). apply last_default.
Qed.

(** On project records the loop ends, and leaves in [project] the last
    record with the requested id, if there is one. *)
Lemma scan_last wanted items project :
  Forall has_id items ->
  scan wanted items project =
    Val (List.last (List.filter (is_wanted wanted) items) project).
Proof.
  intros Hwf. revert project.
  induction Hwf as [|r items Hr _ IH]; intros project; [reflexivity|].
  apply (has_id_matches wanted) in Hr as [found Hr].
  simpl. unfold is_wanted at 1. rewrite Hr. simpl. rewrite IH.
  destruct found; [|reflexivity]. by rewrite last_cons.
Qed.

Lemma is_wanted_matches wanted r :
  is_wanted wanted r = true <-> matches wanted r = Val true.
Proof.
  unfold is_wanted. destruct (matches wanted r) as [[]|]; split; congruence.
Qed.

Lemma existsb_listed_in wanted records :
  existsb (is_wanted wanted) records = true <-> listed_in wanted records.
Proof.
  unfold listed_in. induction records as [|r records IH]; simpl.
  - split; [discriminate | intros H; inversion H].
  - by rewrite orb_true_iff, Exists_cons, IH, is_wanted_matches.
Qed.

Lemma last_filter_wanted wanted items project :
  Forall has_id items ->
  is_empty_dict
    (List.last (List.filter (is_wanted wanted) items) project) =
  if existsb (is_wanted wanted) items then false else is_empty_dict project.
Proof.
  intros Hwf. revert project.
  induction Hwf as [|r items Hr _ IH]; intros project; [reflexivity|].
  cbn [List.filter existsb].
  destruct (is_wanted wanted r) eqn:Hw; cbn [orb]; [|apply IH].
  rewrite last_cons, IH. destruct (existsb _ items); [reflexivity|].
  by apply has_id_not_empty.
Qed.

(** The sentinel: on project records the loop ends with the empty
    dictionary exactly when the requested project is not among them. *)
Lemma scan_sentinel wanted records project :
  Forall has_id records ->
  scan wanted records (PyDict ∅) = Val project ->
  is_empty_dict project = true <-> ~ listed_in wanted records.
Proof.
  intros Hwf. rewrite (scan_last _ _ _ Hwf). intros [= <-].
  rewrite (last_filter_wanted _ _ _ Hwf), <- existsb_listed_in.
  destruct (existsb _ records); simpl.
  - split; [discriminate | intros H; by destruct H].
  - split; [intros _; discriminate | intros _; by apply bool_decide_eq_true].
Qed.

(** ** The branches of the handler *)

(** The [result] dictionary after a creation and after a deletion. *)
Lemma result_created (vm message : pyval) :
  <["changed" := PyBool true]>
    (<["message" := message]> (<["vm" := vm]> unchanged))
  = {["changed" := PyBool true; "vm" := vm; "message" := message]}.
Proof.
  unfold unchanged. apply map_eq. intros k.
  destruct (decide (k = "changed")) as [->|]; [by simplify_map_eq|].
  destruct (decide (k = "message")) as [->|]; [by simplify_map_eq|].
  destruct (decide (k = "vm")) as [->|]; by simplify_map_eq.
Qed.

Lemma result_deleted (message : pyval) :
  <["changed" := PyBool true]> (<["message" := message]> unchanged)
  = {["changed" := PyBool true; "message" := message]}.
Proof.
  unfold unchanged. apply map_eq. intros k.
  destruct (decide (k = "changed")) as [->|]; [by simplify_map_eq|].
  destruct (decide (k = "message")) as [->|]; by simplify_map_eq.
Qed.

Section Handler.
Variables (up : upstream) (p : params).

Let c : Aarch64Client := client_of p.
Let created : mstate := MState unchanged [list_request p; create_request p].
Let deleted : mstate := MState unchanged [delete_request p].

Lemma run_present :
  param_state p = present ->
  run up p = (present_branch c p;; finish) up init.
Proof. intros H. unfold run, main. rewrite H. reflexivity. Qed.

Lemma run_absent :
  param_state p = absent ->
  run up p = (absent_branch c p;; finish) up init.
Proof. intros H. unfold run, main. rewrite H. reflexivity. Qed.

Lemma projects_pair :
  projects c up init = ((call c OpProjects up init).1, listed p).
Proof. exact (call_pair c OpProjects up init). Qed.

Lemma create_pair :
  create_vm c (of_param (param_hostname p)) (of_param (param_pop p))
    (of_param (param_project p)) (of_param (param_plan p))
    (of_param (param_os p)) up (listed p)
  = ((call c (create_op p) up (listed p)).1, created).
Proof. exact (call_pair c (create_op p) up (listed p)). Qed.

Lemma delete_pair :
  delete_vm c (of_param (param_id p)) up init
  = ((call c (delete_op p) up init).1, deleted).
Proof. exact (call_pair c (delete_op p) up init). Qed.

Lemma list_error m :
  param_state p = present ->
  (call c OpProjects up init).1 = Raise (ApiException (PyStr m)) ->
  run up p = (Raise (failure ("Unable to get projects: " ++ m)), listed p).
Proof.
  intros Hp H. rewrite (run_present Hp). unfold present_branch. munfold.
  rewrite projects_pair, H. reflexivity.
Qed.

(** Once the projects are listed, all that matters is whether the
    requested one is among them. *)
Lemma present_scanned resp records :
  param_state p = present ->
  (call c OpProjects up init).1 = Val resp ->
  data_field resp = Val (PyList records) ->
  Forall has_id records ->
  run up p =
    if existsb (is_wanted (param_project p)) records
    then (create_branch c p;; finish) up (listed p)
    else (Raise (failure ("Unable to find project with id "
                          ++ str_param (param_project p))),
          listed p).
Proof.
  intros Hp H Hdata Hwf. rewrite (run_present Hp). unfold present_branch.
  munfold. rewrite projects_pair, H. cbn beta iota.
  rewrite Hdata. cbn [py_iter]. rewrite (scan_last _ _ _ Hwf).
  rewrite (last_filter_wanted _ _ _ Hwf).
  by destruct (existsb _ records).
Qed.

Lemma create_error m :
  (call c (create_op p) up (listed p)).1 = Raise (ApiException (PyStr m)) ->
  (create_branch c p;; finish) up (listed p) =
    (Raise (failure ("Unable to create VM: " ++ m)), created).
Proof.
  intros H. unfold create_branch. munfold. rewrite create_pair, H.
  reflexivity.
Qed.

Lemma create_done resp vm message :
  (call c (create_op p) up (listed p)).1 = Val resp ->
  data_field resp = Val vm ->
  meta_field resp "message" = Val message ->
  (create_branch c p;; finish) up (listed p) =
    (Raise (SystemExit
              (ExitJson {["changed" := PyBool true; "vm" := vm;
                          "message" := message]})),
     MState {["changed" := PyBool true; "vm" := vm; "message" := message]}
       [list_request p; create_request p]).
Proof.
  intros H Hdata Hmsg. unfold create_branch, finish. munfold.
  rewrite create_pair, H. cbn beta iota. rewrite Hdata, Hmsg.
  cbn. by rewrite result_created.
Qed.

Lemma delete_error m :
  param_state p = absent ->
  (call c (delete_op p) up init).1 = Raise (ApiException (PyStr m)) ->
  run up p = (Raise (failure ("Unable to delete VM: " ++ m)), deleted).
Proof.
  intros Hp H. rewrite (run_absent Hp). unfold absent_branch. munfold.
  rewrite delete_pair, H. reflexivity.
Qed.

Lemma delete_done resp message :
  param_state p = absent ->
  (call c (delete_op p) up init).1 = Val resp ->
  meta_field resp "message" = Val message ->
  run up p =
    (Raise (SystemExit
              (ExitJson {["changed" := PyBool true; "message" := message]})),
     MState {["changed" := PyBool true; "message" := message]}
       [delete_request p]).
Proof.
  intros Hp H Hmsg. rewrite (run_absent Hp). unfold absent_branch, finish.
  munfold. rewrite delete_pair, H. cbn beta iota. rewrite Hmsg.
  cbn. by rewrite result_deleted.
Qed.
End Handler.

(** ** Every run of the handler *)

Section Shape.
Variables (up : upstream) (p : params).

Lemma sends_list : param_state p = present -> sends p [list_request p].
Proof. unfold sends. intros ->. by left. Qed.

Lemma sends_create :
  param_state p = present -> sends p [list_request p; create_request p].
Proof. unfold sends. intros ->. by right. Qed.

Lemma sends_delete : param_state p = absent -> sends p [delete_request p].
Proof. unfold sends. by intros ->. Qed.

Hint Resolve sends_list sends_create sends_delete : core.

(** An exception an operation raised and the handler did not catch. *)
Lemma uncaught_crash {A} (e : exn) (sent : list request)
    (handler : pyval -> res A * mstate) :
  crash e ->
  sends p sent ->
  shape up p
    (let (r, st') :=
       match e with
       | ApiException message => handler message
       | _ => (Raise e, MState unchanged sent)
       end in
     match r with
     | Val _ => (Raise (SystemExit (ExitJson (result st'))), st')
     | Raise e' => (Raise e', st')
     end).
Proof. intros He Hs. destruct e; try destruct He; by apply shape_crash. Qed.

Lemma present_shape : param_state p = present -> shape up p (run up p).
Proof.
  intros Hp. rewrite (run_present _ _ Hp).
  unfold present_branch, create_branch, finish. munfold.
  rewrite projects_pair.
  destruct (call _ OpProjects up init).1 as [resp|e] eqn:Hlist; cbn beta iota.
  - destruct (data_field resp) as [data|] eqn:Hdata; cbn beta iota;
      [|apply shape_crash; eauto using data_field_raise].
    destruct (py_iter data) as [items|] eqn:Hiter; cbn beta iota;
      [|apply shape_crash; eauto using py_iter_raise].
    destruct (scan _ items _) as [project|] eqn:Hscan; cbn beta iota;
      [|apply shape_crash; eauto using scan_raise].
    destruct (is_empty_dict project) eqn:Hempty; cbn beta iota;
      [by eapply shape_not_found|].
    rewrite create_pair.
    destruct (call _ (create_op p) up _).1 as [cresp|e] eqn:Hcreate;
      cbn beta iota.
    + destruct (data_field cresp) as [vm|] eqn:Hvm; cbn;
        [|apply shape_crash; eauto using data_field_raise].
      destruct (meta_field cresp "message") as [message|] eqn:Hmsg; cbn.
      * rewrite result_created. by eapply shape_created.
      * eapply shape_created_crash; eauto using meta_field_raise.
    + destruct (call_raise _ _ _ _ _ Hcreate) as [He|[message ->]];
        [by apply uncaught_crash; auto|].
      destruct (exn_str message) as [s|] eqn:Hstr; cbn beta iota.
      * by apply shape_create_failed.
      * apply shape_crash; eauto using exn_str_raise.
  - destruct (call_raise _ _ _ _ _ Hlist) as [He|[message ->]];
      [by apply uncaught_crash; auto|].
    destruct (exn_str message) as [s|] eqn:Hstr; cbn beta iota.
    + by apply shape_list_failed.
    + apply shape_crash; eauto using exn_str_raise.
Qed.

Lemma absent_shape : param_state p = absent -> shape up p (run up p).
Proof.
  intros Hp. rewrite (run_absent _ _ Hp).
  unfold absent_branch, finish. munfold. rewrite delete_pair.
  destruct (call _ (delete_op p) up init).1 as [resp|e] eqn:Hdel;
    cbn beta iota.
  - destruct (meta_field resp "message") as [message|] eqn:Hmsg; cbn.
    + rewrite result_deleted. by apply shape_deleted.
    + apply shape_crash; eauto using meta_field_raise.
  - destruct (call_raise _ _ _ _ _ Hdel) as [He|[message ->]];
      [by apply uncaught_crash; auto|].
    destruct (exn_str message) as [s|] eqn:Hstr; cbn beta iota.
    + by apply shape_delete_failed.
    + apply shape_crash; eauto using exn_str_raise.
Qed.

Lemma run_shape : shape up p (run up p).
Proof.
  destruct (param_state p) eqn:Hp;
    [by apply present_shape | by apply absent_shape].
Qed.
End Shape.

(** * Main theorems *)

(** ** The [present] branch *)

Lemma not_listed_existsb wanted records :
  ~ listed_in wanted records ->
  existsb (is_wanted wanted) records = false.
Proof.
  rewrite <- existsb_listed_in. by destruct (existsb _ records).
Qed.

Lemma list_not_create p : create_request p ∉ [list_request p].
Proof. rewrite list_elem_of_singleton. discriminate. Qed.

(** C1: in state [present], when the list-projects call returns project
    records and the requested project id is not among them, the handler
    ends with the failure message "Unable to find project with id <id>",
    [changed] is still false, and the list request is the only request
    sent: no create-VM call is issued. *)
Theorem unknown_project_fails (up : upstream) (p : params) (resp : response)
    (records : list pyval) :
  param_state p = present ->
  (call (client_of p) OpProjects up init).1 = Val resp ->
  data_field resp = Val (PyList records) ->
  Forall has_id records ->
  ~ listed_in (param_project p) records ->
  run up p =
    (Raise (SystemExit
              (FailJson {["msg" := PyStr ("Unable to find project with id "
                                          ++ str_param (param_project p))]})),
     MState {["changed" := PyBool false]} [list_request p])
  /\ create_request p ∉ log (run up p).2.
Proof.
  intros Hp Hlist Hdata Hwf Hnot.
  rewrite (present_scanned up p resp records Hp Hlist Hdata Hwf).
  rewrite (not_listed_existsb _ _ Hnot).
  split; [reflexivity | apply list_not_create].
Qed.

Lemma unknown_project_fails_witness :
  run demo_upstream demo_create_unknown =
    (Raise (SystemExit
              (FailJson
                 {["msg" := PyStr "Unable to find project with id p9"]})),
     MState {["changed" := PyBool false]} [list_request demo_create_unknown])
  /\ create_request demo_create_unknown
       ∉ log (run demo_upstream demo_create_unknown).2.
Proof.
  refine (unknown_project_fails demo_upstream demo_create_unknown
            demo_listing demo_records eq_refl _ _ _ _).
  - vm_compute. reflexivity.
  - vm_compute. reflexivity.
  - repeat constructor; eexists; vm_compute; reflexivity.
  - intros H. apply existsb_listed_in in H. vm_compute in H. discriminate.
Defined.

(** C2: in state [present], when the requested project id is among the
    listed project records and the create-VM call succeeds, the handler
    exits with [changed] true, [vm] equal to the [data] payload of the
    create response, and [message] equal to its [meta.message]. *)
Theorem known_project_creates (up : upstream) (p : params)
    (resp cresp : response) (records : list pyval) (vm message : pyval) :
  param_state p = present ->
  (call (client_of p) OpProjects up init).1 = Val resp ->
  data_field resp = Val (PyList records) ->
  Forall has_id records ->
  listed_in (param_project p) records ->
  (call (client_of p) (create_op p) up (listed p)).1 = Val cresp ->
  data_field cresp = Val vm ->
  meta_field cresp "message" = Val message ->
  run up p =
    (Raise (SystemExit
              (ExitJson {["changed" := PyBool true; "vm" := vm;
                          "message" := message]})),
     MState {["changed" := PyBool true; "vm" := vm; "message" := message]}
       [list_request p; create_request p]).
Proof.
  intros Hp Hlist Hdata Hwf Hin Hcreate Hvm Hmsg.
  rewrite (present_scanned up p resp records Hp Hlist Hdata Hwf).
  apply existsb_listed_in in Hin. rewrite Hin.
  exact (create_done up p cresp vm message Hcreate Hvm Hmsg).
Qed.

Lemma known_project_creates_witness :
  run demo_upstream demo_create =
    (Raise (SystemExit
              (ExitJson {["changed" := PyBool true; "vm" := demo_vm;
                          "message" := PyStr "VM created"]})),
     MState {["changed" := PyBool true; "vm" := demo_vm;
              "message" := PyStr "VM created"]}
       [list_request demo_create; create_request demo_create]).
Proof.
  refine (known_project_creates demo_upstream demo_create demo_listing
            demo_creation demo_records demo_vm (PyStr "VM created")
            eq_refl _ _ _ _ _ _ _).
  - vm_compute. reflexivity.
  - vm_compute. reflexivity.
  - repeat constructor; eexists; vm_compute; reflexivity.
  - apply existsb_listed_in. vm_compute. reflexivity.
  - vm_compute. reflexivity.
  - vm_compute. reflexivity.
  - vm_compute. reflexivity.
Defined.

(** ** The [absent] branch *)

Lemma shape_log up p final : shape up p final -> sends p (log final.2).
Proof.
  intros [];
    first [ assumption
          | unfold sends; match goal with H : param_state p = _ |- _ =>
              rewrite H end; simpl; tauto ].
Qed.

(** C3: in state [absent] the delete request is the one and only request
    sent, whatever the server answers; and when the delete-VM call
    succeeds the handler exits with [changed] true and [message] equal
    to the [meta.message] of the delete response. *)
Theorem absent_deletes (up : upstream) (p : params) :
  param_state p = absent ->
  log (run up p).2 = [delete_request p] /\
  forall resp message,
    (call (client_of p) (delete_op p) up init).1 = Val resp ->
    meta_field resp "message" = Val message ->
    run up p =
      (Raise (SystemExit
                (ExitJson {["changed" := PyBool true; "message" := message]})),
       MState {["changed" := PyBool true; "message" := message]}
         [delete_request p]).
Proof.
  intros Hp. split.
  - pose proof (shape_log _ _ _ (run_shape up p)) as H.
    unfold sends in H. by rewrite Hp in H.
  - intros resp message. by apply delete_done.
Qed.

Lemma absent_deletes_witness :
  log (run demo_upstream demo_delete).2 = [delete_request demo_delete] /\
  run demo_upstream demo_delete =
    (Raise (SystemExit
              (ExitJson {["changed" := PyBool true;
                          "message" := PyStr "VM deleted"]})),
     MState {["changed" := PyBool true; "message" := PyStr "VM deleted"]}
       [delete_request demo_delete]).
Proof.
  destruct (absent_deletes demo_upstream demo_delete eq_refl) as [Hlog Hrun].
  split; [exact Hlog|].
  apply (Hrun demo_deletion (PyStr "VM deleted")); vm_compute; reflexivity.
Defined.

(** ** Failures *)

(** C7: an error a client operation raises is caught by the handler and
    turned into a failure document whose message is the prefix of the
    step followed by the message of the error; the request of the failed
    operation is the last one sent, and [changed] is still false. That
    holds for the list call, for the create call and for the delete
    call. Moreover, whenever the handler ends in a failure document,
    its message starts with one of the four prefixes and [changed] is
    still false. *)
Theorem failures_reported (up : upstream) (p : params) :
  (forall m,
     param_state p = present ->
     (call (client_of p) OpProjects up init).1
       = Raise (ApiException (PyStr m)) ->
     run up p =
       (Raise (SystemExit
                 (FailJson {["msg" := PyStr ("Unable to get projects: " ++ m)]})),
        MState {["changed" := PyBool false]} [list_request p]))
  /\
  (forall m resp records,
     param_state p = present ->
     (call (client_of p) OpProjects up init).1 = Val resp ->
     data_field resp = Val (PyList records) ->
     Forall has_id records ->
     listed_in (param_project p) records ->
     (call (client_of p) (create_op p) up (listed p)).1
       = Raise (ApiException (PyStr m)) ->
     run up p =
       (Raise (SystemExit
                 (FailJson {["msg" := PyStr ("Unable to create VM: " ++ m)]})),
        MState {["changed" := PyBool false]}
          [list_request p; create_request p]))
  /\
  (forall m,
     param_state p = absent ->
     (call (client_of p) (delete_op p) up init).1
       = Raise (ApiException (PyStr m)) ->
     run up p =
       (Raise (SystemExit
                 (FailJson {["msg" := PyStr ("Unable to delete VM: " ++ m)]})),
        MState {["changed" := PyBool false]} [delete_request p]))
  /\
  (forall kwargs,
     (run up p).1 = Raise (SystemExit (FailJson kwargs)) ->
     result (run up p).2 = {["changed" := PyBool false]} /\
     exists prefix detail,
       kwargs = {["msg" := PyStr (prefix ++ detail)]} /\ prefix ∈ prefixes).
Proof.
  split; [|split; [|split]].
  - intros m. apply list_error.
  - intros m resp records Hp Hlist Hdata Hwf Hin Hcreate.
    rewrite (present_scanned up p resp records Hp Hlist Hdata Hwf).
    apply existsb_listed_in in Hin. rewrite Hin. by apply create_error.
  - intros m. apply delete_error.
  - intros kwargs Hfail.
    destruct (run_shape up p) as [e ? He| | | | |? ? e ? ? ? He| |];
      unfold failure in Hfail; simpl in Hfail |- *;
      try discriminate;
      try (injection Hfail as ->; by destruct He);
      injection Hfail as <-; (split; [reflexivity|]);
      eexists _, _; (split; [reflexivity|]);
      unfold prefixes; set_solver.
Qed.

Lemma failures_reported_witness :
  run (const_upstream (Response 503 None)) demo_create =
    (Raise (SystemExit
              (FailJson {["msg" := PyStr "Unable to get projects: API returned HTTP 503"]})),
     MState {["changed" := PyBool false]} [list_request demo_create])
  /\
  run (then_upstream (refusal "no capacity in dfw")) demo_create =
    (Raise (SystemExit
              (FailJson {["msg" := PyStr "Unable to create VM: no capacity in dfw"]})),
     MState {["changed" := PyBool false]}
       [list_request demo_create; create_request demo_create])
  /\
  run (const_upstream (refusal "no such VM")) demo_delete =
    (Raise (SystemExit
              (FailJson {["msg" := PyStr "Unable to delete VM: no such VM"]})),
     MState {["changed" := PyBool false]} [delete_request demo_delete]).
Proof.
  split; [|split].
  - refine (proj1 (failures_reported (const_upstream (Response 503 None))
                     demo_create) "API returned HTTP 503" eq_refl _).
    vm_compute. reflexivity.
  - refine (proj1 (proj2 (failures_reported
                            (then_upstream (refusal "no capacity in dfw"))
                            demo_create))
              "no capacity in dfw" demo_listing demo_records eq_refl _ _ _ _ _).
    + vm_compute. reflexivity.
    + vm_compute. reflexivity.
    + repeat constructor; eexists; vm_compute; reflexivity.
    + apply existsb_listed_in. vm_compute. reflexivity.
    + vm_compute. reflexivity.
  - refine (proj1 (proj2 (proj2 (failures_reported
                                   (const_upstream (refusal "no such VM"))
                                   demo_delete)))
              "no such VM" eq_refl _).
    vm_compute. reflexivity.
Defined.

(** ** The errors of the client *)

(** C4 (as the code has it): every failure of an operation that the
    client itself detects is raised as the one exception class
    [ApiException], which carries nothing but a message. When the status
    code is not 200 the message is "API returned HTTP <code>"; when the
    status code is 200 and the success flag of the body is false the
    message is the one the API supplied. *)
Theorem single_error_kind (self : Aarch64Client) (op : operation)
    (up : upstream) (st : mstate) (resp : response) :
  up (log st) (request_of self op) = Some resp ->
  (status_code resp <> 200%Z ->
   (call self op up st).1 =
     Raise (ApiException
              (PyStr ("API returned HTTP " ++ str_int (status_code resp)))))
  /\
  (status_code resp = 200%Z ->
   forall success message,
     meta_field resp "success" = Val success ->
     truthy success = false ->
     meta_field resp "message" = Val message ->
     (call self op up st).1 = Raise (ApiException message)).
Proof.
  intros Hup. split.
  - intros Hne. by rewrite (call_status _ _ _ _ _ Hup Hne).
  - intros H200 success message Hs Ht Hm.
    by rewrite (call_refused _ _ _ _ _ _ _ Hup H200 Hs Ht Hm).
Qed.

(** C4 (as stated) fails: a status 500 and a refusal whose message reads
    "API returned HTTP 500" raise the very same exception, so the two
    causes cannot be told apart by the error raised. *)
Lemma transport_and_api_errors_coincide :
  status_code (Response 500 None) <> 200%Z /\
  status_code (refusal "API returned HTTP 500") = 200%Z /\
  meta_field (refusal "API returned HTTP 500") "success" = Val (PyBool false) /\
  (call (new_client "key") OpProjects (const_upstream (Response 500 None))
     (MState ∅ [])).1
  = Raise (ApiException (PyStr "API returned HTTP 500")) /\
  (call (new_client "key") OpProjects
     (const_upstream (refusal "API returned HTTP 500")) (MState ∅ [])).1
  = Raise (ApiException (PyStr "API returned HTTP 500")).
Proof. repeat split; [discriminate | vm_compute; reflexivity..]. Qed.

Lemma single_error_kind_witness :
  (call (new_client "key") OpGetSystem
     (const_upstream (refusal "no such system")) (MState ∅ [])).1
  = Raise (ApiException (PyStr "no such system")).
Proof.
  refine (proj2 (single_error_kind (new_client "key") OpGetSystem
                   (const_upstream (refusal "no such system")) (MState ∅ [])
                   (refusal "no such system") eq_refl)
            eq_refl (PyBool false) (PyStr "no such system") _ eq_refl _);
    vm_compute; reflexivity.
Defined.

(** C5: whatever the operation, a response whose status code is not 200
    makes it raise an error whose message is "API returned HTTP "
    followed by that code, so the message contains the code. The error
    is the same for every body the response may carry: the body is not
    looked at. *)
Theorem transport_status_error (self : Aarch64Client) (op : operation)
    (up : upstream) (st : mstate) (code : Z) (body : option pyval) :
  up (log st) (request_of self op) = Some (Response code body) ->
  code <> 200%Z ->
  call self op up st =
    (Raise (ApiException (PyStr ("API returned HTTP " ++ str_int code))),
     MState (result st) (log st ++ [request_of self op]))
  /\ occurs_in (str_int code) ("API returned HTTP " ++ str_int code).
Proof.
  intros Hup Hne. split.
  - exact (call_status _ _ _ _ _ Hup Hne).
  - exists "API returned HTTP ", "". by rewrite append_empty_r.
Qed.

Lemma transport_status_error_witness :
  call (new_client "key") (OpDeleteVm (PyStr "v1"))
    (const_upstream (Response 404 (Some (PyStr "not found")))) (MState ∅ [])
  = (Raise (ApiException (PyStr "API returned HTTP 404")),
     MState ∅ [request_of (new_client "key") (OpDeleteVm (PyStr "v1"))])
  /\ occurs_in "404" "API returned HTTP 404".
Proof.
  refine (transport_status_error (new_client "key") (OpDeleteVm (PyStr "v1"))
            (const_upstream (Response 404 (Some (PyStr "not found"))))
            (MState ∅ []) 404 (Some (PyStr "not found")) eq_refl _).
  discriminate.
Defined.

(** C6: whatever the operation, a response with status 200 whose
    [meta.success] is false makes it raise an error whose message is the
    body's [meta.message], unchanged. *)
Theorem api_refusal_message (self : Aarch64Client) (op : operation)
    (up : upstream) (st : mstate) (resp : response)
    (success message : pyval) :
  up (log st) (request_of self op) = Some resp ->
  status_code resp = 200%Z ->
  meta_field resp "success" = Val success ->
  truthy success = false ->
  meta_field resp "message" = Val message ->
  call self op up st =
    (Raise (ApiException message),
     MState (result st) (log st ++ [request_of self op])).
Proof. apply call_refused. Qed.

Lemma api_refusal_message_witness :
  call (new_client "key") (OpCreateProject (PyStr "infra"))
    (const_upstream (refusal "Project limit reached")) (MState ∅ [])
  = (Raise (ApiException (PyStr "Project limit reached")),
     MState ∅ [request_of (new_client "key") (OpCreateProject (PyStr "infra"))]).
Proof.
  refine (api_refusal_message (new_client "key")
            (OpCreateProject (PyStr "infra"))
            (const_upstream (refusal "Project limit reached")) (MState ∅ [])
            (refusal "Project limit reached") (PyBool false)
            (PyStr "Project limit reached") eq_refl eq_refl _ eq_refl _);
    vm_compute; reflexivity.
Defined.

(** ** Requests *)

(** C8: the body of the request [create_vm] sends is a dictionary with
    the five keys [hostname], [pop], [project], [plan] and [os], bound
    to the arguments of the call, and no other key; and the request of
    every operation, hence every request the handler sends, carries the
    header [Authorization] with the API key as its value. *)
Theorem create_vm_request (self : Aarch64Client)
    (hostname pop project_id plan os : pyval) (up : upstream) (st : mstate) :
  (exists body,
     log (create_vm self hostname pop project_id plan os up st).2 =
       (log st ++ [Request "POST" (server self ++ "/vms/create")
                     (Some (PyDict body))
                     {["Authorization" := api_key self]}])%list
     /\ dom body = {["hostname"; "pop"; "project"; "plan"; "os"]}
     /\ body !! "hostname" = Some hostname
     /\ body !! "pop" = Some pop
     /\ body !! "project" = Some project_id
     /\ body !! "plan" = Some plan
     /\ body !! "os" = Some os)
  /\
  (forall op,
     exists r,
       log (call self op up st).2 = (log st ++ [r])%list /\
       headers r = {["Authorization" := api_key self]})
  /\
  (forall p r,
     r ∈ log (run up p).2 ->
     headers r = {["Authorization" := param_api_key p]}).
Proof.
  split; [|split].
  - eexists. split; [|split].
    + change (create_vm self hostname pop project_id plan os)
        with (call self (OpCreateVm hostname pop project_id plan os)).
      rewrite call_state. reflexivity.
    + rewrite !dom_insert_L, dom_singleton_L. set_solver.
    + repeat split; by simplify_map_eq.
  - intros op. exists (request_of self op). rewrite call_state.
    split; [reflexivity | by destruct op].
  - intros p r Hin. pose proof (shape_log _ _ _ (run_shape up p)) as Hs.
    unfold sends in Hs.
    destruct (param_state p); [destruct Hs as [Hs|Hs]|];
      rewrite Hs in Hin;
      repeat (apply elem_of_cons in Hin as [->|Hin]; [reflexivity|]);
      by apply elem_of_nil in Hin.
Qed.

(** ** The result document *)

(** C9: [result] never holds a key other than [changed], [message] and
    [vm]. A failure document has no [vm], and [result] has none then.
    The document the handler exits with is [result], with [changed]
    true, and in state [absent] it has no [vm]. Whenever [result] holds
    a [vm], the state is [present], the create-VM call has succeeded,
    and the [vm] is the [data] of its response. *)
Theorem vm_only_on_creation (up : upstream) (p : params) :
  dom (result (run up p).2) ⊆ {["changed"; "message"; "vm"]}
  /\
  (forall kwargs,
     (run up p).1 = Raise (SystemExit (FailJson kwargs)) ->
     kwargs !! "vm" = None /\ result (run up p).2 !! "vm" = None)
  /\
  (forall kwargs,
     (run up p).1 = Raise (SystemExit (ExitJson kwargs)) ->
     kwargs = result (run up p).2 /\
     kwargs !! "changed" = Some (PyBool true) /\
     (param_state p = absent -> kwargs !! "vm" = None))
  /\
  (forall vm,
     result (run up p).2 !! "vm" = Some vm ->
     param_state p = present /\
     exists cresp,
       (call (client_of p) (create_op p) up (listed p)).1 = Val cresp /\
       data_field cresp = Val vm).
Proof.
  split; [|split; [|split]].
  - destruct (run_shape up p); simpl; unfold unchanged;
      rewrite ?dom_insert_L, dom_singleton_L; intros k;
      rewrite !elem_of_union, !elem_of_singleton; tauto.
  - intros kwargs Hfail.
    destruct (run_shape up p) as [e ? He| | | | |? ? e ? ? ? He| |];
      unfold failure in Hfail; simpl in Hfail |- *;
      try discriminate;
      try (injection Hfail as ->; by destruct He);
      injection Hfail as <-; by simplify_map_eq.
  - intros kwargs Hexit.
    destruct (run_shape up p) as [e ? He| | | | |? ? e ? ? ? He| |];
      unfold failure in Hexit; simpl in Hexit |- *;
      try discriminate;
      try (injection Hexit as ->; by destruct He);
      injection Hexit as <-;
      (split; [reflexivity|]); (split; [by simplify_map_eq|]);
      intros Ha; first [congruence | by simplify_map_eq].
  - intros vm Hvm.
    destruct (run_shape up p); simpl in Hvm; unfold unchanged in Hvm;
      simplify_map_eq; eauto.
Qed.

Lemma vm_only_on_creation_witness :
  (run demo_upstream demo_delete).1 =
    Raise (SystemExit
             (ExitJson {["changed" := PyBool true;
                         "message" := PyStr "VM deleted"]}))
  /\
  ({["changed" := PyBool true; "message" := PyStr "VM deleted"]}
     : gmap string pyval) !! "vm" = None.
Proof.
  assert ((run demo_upstream demo_delete).1 =
            Raise (SystemExit
                     (ExitJson {["changed" := PyBool true;
                                 "message" := PyStr "VM deleted"]})))
    as Hrun by (vm_compute; reflexivity).
  split; [exact Hrun|].
  exact (proj2 (proj2 (proj1 (proj2 (proj2
           (vm_only_on_creation demo_upstream demo_delete))) _ Hrun))
           eq_refl).
Defined.

(** ** The sentinel of the project scan *)

Lemma failure_inj a b : failure a = failure b -> a = b.
Proof.
  unfold failure. intros H.
  apply (f_equal (fun e => match e with
                           | SystemExit (FailJson kwargs) => kwargs !! "msg"
                           | _ => None
                           end)) in H.
  cbv beta iota in H. rewrite !lookup_singleton_eq in H. congruence.
Qed.

Lemma raise_inj {A} (e e' : exn) : @Raise A e = Raise e' -> e = e'.
Proof. congruence. Qed.

(** A run that found the project does not report it missing. *)
Lemma found_not_reported up p resp records :
  (call (client_of p) OpProjects up init).1 = Val resp ->
  data_field resp = Val (PyList records) ->
  Forall has_id records ->
  listed_in (param_project p) records ->
  (run up p).1 <>
    Raise (failure ("Unable to find project with id "
                    ++ str_param (param_project p))).
Proof.
  intros Hlist Hdata Hwf Hin Hfail.
  destruct (run_shape up p)
    as [e ? He| |resp' data items project _ Hlist' Hdata' Hiter Hscan Hempty
       | | |? ? e ? ? ? He| |];
    simpl in Hfail.
  - apply raise_inj in Hfail. subst e. destruct He.
  - apply raise_inj, failure_inj in Hfail. cbv in Hfail. discriminate.
  - rewrite Hlist in Hlist'. injection Hlist' as <-.
    rewrite Hdata in Hdata'. injection Hdata' as <-.
    injection Hiter as <-.
    by apply (scan_sentinel _ _ _ Hwf Hscan) in Hempty.
  - apply raise_inj, failure_inj in Hfail. cbv in Hfail. discriminate.
  - apply raise_inj, failure_inj in Hfail. cbv in Hfail. discriminate.
  - apply raise_inj in Hfail. subst e. destruct He.
  - apply raise_inj in Hfail. discriminate.
  - apply raise_inj in Hfail. discriminate.
Qed.

(** The test of the loop is equality of values. *)
Lemma eq_param_of_param (x : pyval) (wanted : option string) :
  eq_param x wanted = true <-> x = of_param wanted.
Proof.
  destruct x, wanted as [t|]; simpl;
    try rewrite String.eqb_eq;
    split; intros H; first [discriminate | reflexivity | congruence].
Qed.

Lemma matches_requested wanted r :
  matches wanted r = Val true <-> has_requested_id wanted r.
Proof.
  unfold matches, getitem, has_requested_id. munfold. split.
  - destruct r as [| | | | | |d]; try discriminate.
    destruct (d !! "_id") as [id|] eqn:Hid; [|discriminate].
    intros [= H]. apply eq_param_of_param in H. subst id. eauto.
  - intros [d [-> Hid]]. rewrite Hid. f_equal.
    by apply eq_param_of_param.
Qed.

Lemma listed_in_requested wanted records :
  listed_in wanted records <-> requested_among wanted records.
Proof.
  unfold listed_in, requested_among.
  split; intros H; (eapply Exists_impl; [exact H|]); intros r;
    apply matches_requested.
Qed.

(** On project records the loop ends with the project it started with
    if no record has the requested id, and otherwise with the last
    record that has it. *)
Lemma scan_requested wanted items project :
  Forall has_id items ->
  exists found,
    scan wanted items project = Val found /\
    ((found = project /\ ~ requested_among wanted items) \/
     (exists pre post,
        items = (pre ++ found :: post)%list /\
        has_requested_id wanted found /\
        Forall (fun r => ~ has_requested_id wanted r) post)).
Proof.
  intros Hwf. revert project.
  induction Hwf as [|r items Hr _ IH]; intros project.
  - exists project. split; [reflexivity|]. left. split; [reflexivity|].
    unfold requested_among. intros H. by apply Exists_nil in H.
  - apply (has_id_matches wanted) in Hr as [b Hr].
    destruct (IH (if b then r else project))
      as [found [Hscan [[Hfound Hnone]|[pre [post [Hitems Hrest]]]]]];
      exists found; (split; [simpl; by rewrite Hr|]).
    + destruct b.
      * right. exists [], items. subst found. split; [reflexivity|].
        split; [by apply matches_requested|].
        apply Forall_forall. intros x Hx Hreq. apply Hnone.
        unfold requested_among. rewrite Exists_exists. eauto.
      * left. split; [exact Hfound|].
        unfold requested_among. rewrite Exists_cons. intros [Hreq|Hreq].
        -- apply matches_requested in Hreq. congruence.
        -- by apply Hnone.
    + right. exists (r :: pre), post. by rewrite Hitems.
Qed.

(** C10: when the list-projects call returns project records, the scan
    ends with the empty dictionary if no record is a dictionary whose
    [_id] is the requested id, and otherwise with the last record that
    is; a project record is never the empty dictionary, so the scan
    ends with the empty dictionary exactly when no record has the
    requested id. The handler reports "Unable to find project with id
    <id>" exactly in that case; and when a record has the requested id
    the run goes on as the create step does from the state after the
    list request, whichever record the scan ended with. *)
Theorem project_scan_sound (up : upstream) (p : params) (resp : response)
    (records : list pyval) :
  param_state p = present ->
  (call (client_of p) OpProjects up init).1 = Val resp ->
  data_field resp = Val (PyList records) ->
  Forall has_id records ->
  (exists project,
     scan (param_project p) records (PyDict ∅) = Val project /\
     ((project = PyDict ∅ /\ ~ requested_among (param_project p) records) \/
      (exists pre post,
         records = (pre ++ project :: post)%list /\
         has_requested_id (param_project p) project /\
         Forall (fun r => ~ has_requested_id (param_project p) r) post)) /\
     (is_empty_dict project = true <->
      ~ requested_among (param_project p) records))
  /\
  Forall (fun r => is_empty_dict r = false) records
  /\
  ((run up p).1 =
     Raise (SystemExit
              (FailJson {["msg" := PyStr ("Unable to find project with id "
                                          ++ str_param (param_project p))]}))
   <-> ~ requested_among (param_project p) records)
  /\
  (requested_among (param_project p) records ->
   run up p = (create_branch (client_of p) p;; finish) up (listed p)).
Proof.
  intros Hp Hlist Hdata Hwf. split; [|split; [|split]].
  - destruct (scan_requested (param_project p) records (PyDict ∅) Hwf)
      as [project [Hscan Hcases]].
    exists project. split; [exact Hscan|]. split; [exact Hcases|].
    rewrite <- listed_in_requested. by apply scan_sentinel.
  - eapply Forall_impl; [exact Hwf | apply has_id_not_empty].
  - rewrite <- listed_in_requested. split.
    + intros Hfail Hin.
      by apply (found_not_reported up p resp records Hlist Hdata Hwf Hin).
    + intros Hnot.
      rewrite (present_scanned up p resp records Hp Hlist Hdata Hwf).
      by rewrite (not_listed_existsb _ _ Hnot).
  - intros Hin. apply listed_in_requested in Hin.
    rewrite (present_scanned up p resp records Hp Hlist Hdata Hwf).
    apply existsb_listed_in in Hin. by rewrite Hin.
Qed.

Lemma project_scan_sound_witness :
  scan (Some "p1") demo_records (PyDict ∅)
    = Val (PyDict {["_id" := PyStr "p1"]})
  /\
  run demo_upstream demo_create =
    (create_branch (client_of demo_create) demo_create;; finish)
      demo_upstream (listed demo_create).
Proof.
  assert (Forall has_id demo_records) as Hwf
    by (repeat constructor; eexists; vm_compute; reflexivity).
  assert (data_field demo_listing = Val (PyList demo_records)) as Hdata
    by (vm_compute; reflexivity).
  assert ((call (client_of demo_create) OpProjects demo_upstream init).1
          = Val demo_listing) as Hlist
    by (vm_compute; reflexivity).
  destruct (project_scan_sound demo_upstream demo_create demo_listing
              demo_records eq_refl Hlist Hdata Hwf)
    as [_ [_ [_ Hrun]]].
  split.
  - vm_compute. reflexivity.
  - apply Hrun. apply Exists_cons_tl, Exists_cons_hd.
    exists {["_id" := PyStr "p1"]}. split; [reflexivity|].
    vm_compute. reflexivity.
Defined.

Lemma create_vm_request_witness :
  Forall (fun r => headers r = {["Authorization" := "key"]})
    (log (run demo_upstream demo_create).2).
Proof.
  apply Forall_forall. intros r Hin.
  exact (proj2 (proj2 (create_vm_request (new_client "key") PyNone PyNone
                          PyNone PyNone PyNone demo_upstream init))
           demo_create r Hin).
Defined.

(** * Further properties *)

(** ** The operations *)

(** X1: an operation returns a response exactly when the server sent
    that response with status 200 and a true success flag. *)
Theorem operation_returns_iff (self : Aarch64Client) (op : operation)
    (up : upstream) (st : mstate) (resp : response) :
  (call self op up st).1 = Val resp <->
  up (log st) (request_of self op) = Some resp /\
  status_code resp = 200%Z /\
  exists success,
    meta_field resp "success" = Val success /\ truthy success = true.
Proof.
  split; [apply call_val_inv|].
  intros [Hup [H200 [success [Hs Ht]]]].
  by rewrite (call_ok _ _ _ _ _ _ Hup H200 Hs Ht).
Qed.

Lemma operation_returns_iff_witness :
  (call (new_client "key") OpGetSystem (const_upstream demo_deletion)
     (MState ∅ [])).1 = Val demo_deletion.
Proof.
  apply (proj2 (operation_returns_iff (new_client "key") OpGetSystem
                  (const_upstream demo_deletion) (MState ∅ []) demo_deletion)).
  split; [reflexivity|]. split; [reflexivity|].
  exists (PyBool true). split; vm_compute; reflexivity.
Defined.

(** X2: each operation sends one request, whether it then succeeds or
    fails, and leaves [result] alone: [projects] a GET of [/projects]
    and [get_system] a GET of [/system], both without a body;
    [create_project] a POST of [/project] with the body [{name}];
    [add_user] a POST of [/project/adduser] with the body
    [{project, email}]; [delete_vm] a DELETE of [/vms/delete] with the
    body [{vm}]. *)
Theorem operations_send_one_request (self : Aarch64Client) (up : upstream)
    (st : mstate) :
  let sent meth endpoint body :=
    MState (result st)
      (log st ++ [Request meth (server self ++ endpoint) body
                    {["Authorization" := api_key self]}]) in
  (projects self up st).2 = sent "GET" "/projects" None /\
  (get_system self up st).2 = sent "GET" "/system" None /\
  (forall name,
     (create_project self name up st).2 =
       sent "POST" "/project" (Some (PyDict {["name" := name]}))) /\
  (forall project_id email,
     (add_user self project_id email up st).2 =
       sent "POST" "/project/adduser"
         (Some (PyDict {["project" := project_id; "email" := email]}))) /\
  (forall vm,
     (delete_vm self vm up st).2 =
       sent "DELETE" "/vms/delete" (Some (PyDict {["vm" := vm]}))).
Proof.
  repeat split; intros; apply req_state.
Qed.

(** ** Runs that crash *)

Section First.
Variables (up : upstream) (p : params).

Let started : mstate := MState unchanged [first_request p].

Lemma first_pair :
  call (client_of p) (first_op p) up init
  = ((call (client_of p) (first_op p) up init).1, started).
Proof. exact (call_pair (client_of p) (first_op p) up init). Qed.

(** An exception of the first call that is not an [ApiException] ends
    the run. *)
Lemma first_crash e :
  (call (client_of p) (first_op p) up init).1 = Raise e ->
  crash e ->
  run up p = (Raise e, started).
Proof.
  unfold started, first_request, first_op. intros H He.
  destruct (param_state p) eqn:Hp.
  - rewrite (run_present _ _ Hp). unfold present_branch. munfold.
    rewrite projects_pair, H. by destruct e.
  - rewrite (run_absent _ _ Hp). unfold absent_branch. munfold.
    rewrite delete_pair, H. by destruct e.
Qed.

(** An [ApiException] of the first call ends the run in whatever
    formatting its message gives. *)
Lemma first_api_error message :
  (call (client_of p) (first_op p) up init).1
    = Raise (ApiException message) ->
  run up p =
    (match exn_str message with
     | Val s => Raise (failure (first_prefix p ++ s))
     | Raise e => Raise e
     end, started).
Proof.
  unfold started, first_request, first_op, first_prefix. intros H.
  destruct (param_state p) eqn:Hp.
  - rewrite (run_present _ _ Hp). unfold present_branch. munfold.
    rewrite projects_pair, H. by destruct (exn_str message).
  - rewrite (run_absent _ _ Hp). unfold absent_branch. munfold.
    rewrite delete_pair, H. by destruct (exn_str message).
Qed.

(** What the [present] branch does once the list call has returned. *)
Lemma present_after_list resp :
  param_state p = present ->
  (call (client_of p) OpProjects up init).1 = Val resp ->
  run up p =
    match find_project (param_project p) resp with
    | Raise e => (Raise e, listed p)
    | Val project =>
        if is_empty_dict project
        then (Raise (failure ("Unable to find project with id "
                              ++ str_param (param_project p))),
              listed p)
        else (create_branch (client_of p) p;; finish) up (listed p)
    end.
Proof.
  intros Hp H. rewrite (run_present _ _ Hp). unfold present_branch.
  unfold find_project.
  munfold. rewrite projects_pair, H. cbn beta iota.
  destruct (data_field resp) as [data|]; [|reflexivity].
  destruct (py_iter data) as [items|]; [|reflexivity].
  destruct (scan _ items _) as [project|]; [|reflexivity].
  by destruct (is_empty_dict project).
Qed.

(** What the create step does with the outcome of the create call. *)
Lemma create_crash e :
  (call (client_of p) (create_op p) up (listed p)).1 = Raise e ->
  crash e ->
  (create_branch (client_of p) p;; finish) up (listed p) =
    (Raise e, MState unchanged [list_request p; create_request p]).
Proof.
  intros H He. unfold create_branch. munfold. rewrite create_pair, H.
  by destruct e.
Qed.

Lemma create_api_error message :
  (call (client_of p) (create_op p) up (listed p)).1
    = Raise (ApiException message) ->
  (create_branch (client_of p) p;; finish) up (listed p) =
    (match exn_str message with
     | Val s => Raise (failure ("Unable to create VM: " ++ s))
     | Raise e => Raise e
     end, MState unchanged [list_request p; create_request p]).
Proof.
  intros H. unfold create_branch. munfold. rewrite create_pair, H.
  by destruct (exn_str message).
Qed.
End First.

(** A body that cannot be read makes the operation raise what reading
    it raises. *)
Lemma call_success_error self op up st resp e :
  up (log st) (request_of self op) = Some resp ->
  status_code resp = 200%Z ->
  meta_field resp "success" = Raise e ->
  call self op up st =
    (Raise e, MState (result st) (log st ++ [request_of self op])).
Proof.
  intros Hup H200 Hs. rewrite call_pair. f_equal.
  destruct op; unfold call, projects, create_project, add_user, create_vm,
    delete_vm, get_system, _req; munfold; simpl in Hup |- *;
    rewrite Hup, H200, Hs; reflexivity.
Qed.

Lemma call_message_error self op up st resp success e :
  up (log st) (request_of self op) = Some resp ->
  status_code resp = 200%Z ->
  meta_field resp "success" = Val success ->
  truthy success = false ->
  meta_field resp "message" = Raise e ->
  call self op up st =
    (Raise e, MState (result st) (log st ++ [request_of self op])).
Proof.
  intros Hup H200 Hs Ht Hm. rewrite call_pair. f_equal.
  destruct op; unfold call, projects, create_project, add_user, create_vm,
    delete_vm, get_system, _req; munfold; simpl in Hup |- *;
    rewrite Hup, H200, Hs, Ht, Hm; reflexivity.
Qed.

(** X3: a response with status 200 whose body is not JSON makes every
    operation raise [JSONDecodeError], which is no [ApiException]: when
    it is the answer to the first request of a run, the handler does not
    catch it, and the run ends with that exception, with no document,
    [changed] false and nothing more sent. *)
Theorem non_json_body_crashes :
  (forall self op up st resp,
     up (log st) (request_of self op) = Some resp ->
     status_code resp = 200%Z ->
     content resp = None ->
     call self op up st =
       (Raise JSONDecodeError,
        MState (result st) (log st ++ [request_of self op])))
  /\
  (forall up p resp,
     up [] (first_request p) = Some resp ->
     status_code resp = 200%Z ->
     content resp = None ->
     run up p =
       (Raise JSONDecodeError,
        MState {["changed" := PyBool false]} [first_request p])).
Proof.
  assert (forall self op up st resp,
     up (log st) (request_of self op) = Some resp ->
     status_code resp = 200%Z ->
     content resp = None ->
     call self op up st =
       (Raise JSONDecodeError,
        MState (result st) (log st ++ [request_of self op]))) as Hop.
  { intros self op up st resp Hup H200 Hc.
    apply (call_success_error _ _ _ _ resp); [done..|].
    unfold meta_field, resp_json. by rewrite Hc. }
  split; [exact Hop|].
  intros up p resp Hup H200 Hc. apply first_crash; [|exact I].
  by rewrite (Hop (client_of p) (first_op p) up init resp Hup H200 Hc).
Qed.

Lemma non_json_body_crashes_witness :
  run (const_upstream (Response 200 None)) demo_delete =
    (Raise JSONDecodeError,
     MState {["changed" := PyBool false]} [first_request demo_delete]).
Proof.
  exact (proj2 non_json_body_crashes (const_upstream (Response 200 None))
           demo_delete (Response 200 None) eq_refl eq_refl eq_refl).
Defined.

(** X4: with status 200 and a JSON body, an operation raises [TypeError]
    when the body is not a dictionary, [KeyError] for [meta] when the
    body has no [meta], [KeyError] for [success] when [meta] has no
    [success], and, when the success flag is false, [KeyError] for
    [message] when [meta] has no [message]. *)
Theorem malformed_envelope (self : Aarch64Client) (op : operation)
    (up : upstream) (st : mstate) (resp : response) (body : pyval) :
  up (log st) (request_of self op) = Some resp ->
  status_code resp = 200%Z ->
  content resp = Some body ->
  ((forall d, body <> PyDict d) ->
   (call self op up st).1 = Raise TypeError)
  /\
  (forall d,
     body = PyDict d -> d !! "meta" = None ->
     (call self op up st).1 = Raise (KeyError "meta"))
  /\
  (forall d meta,
     body = PyDict d -> d !! "meta" = Some (PyDict meta) ->
     meta !! "success" = None ->
     (call self op up st).1 = Raise (KeyError "success"))
  /\
  (forall d meta success,
     body = PyDict d -> d !! "meta" = Some (PyDict meta) ->
     meta !! "success" = Some success ->
     truthy success = false ->
     meta !! "message" = None ->
     (call self op up st).1 = Raise (KeyError "message")).
Proof.
  intros Hup H200 Hc. split; [|split; [|split]].
  - intros Hd. rewrite (call_success_error _ _ _ _ resp TypeError); try done.
    unfold meta_field, resp_json. rewrite Hc. munfold.
    destruct body; try reflexivity. by destruct (Hd d).
  - intros d -> Hmeta.
    rewrite (call_success_error _ _ _ _ resp (KeyError "meta")); try done.
    unfold meta_field, resp_json. rewrite Hc. munfold. simpl.
    by rewrite Hmeta.
  - intros d meta -> Hmeta Hs.
    rewrite (call_success_error _ _ _ _ resp (KeyError "success")); try done.
    unfold meta_field, resp_json. rewrite Hc. munfold. simpl.
    rewrite Hmeta. simpl. by rewrite Hs.
  - intros d meta success -> Hmeta Hs Ht Hm.
    assert (forall k, meta_field resp k =
              match meta !! k with
              | Some v => Val v
              | None => Raise (KeyError k)
              end) as Hfield.
    { intros k. unfold meta_field, resp_json. rewrite Hc. munfold. simpl.
      by rewrite Hmeta. }
    rewrite (call_message_error _ _ _ _ resp success (KeyError "message"));
      try done.
    + by rewrite Hfield, Hs.
    + by rewrite Hfield, Hm.
Qed.

Lemma malformed_envelope_witness :
  (call (new_client "key") OpProjects
     (const_upstream (Response 200 (Some (PyDict {["data" := PyList []]}))))
     (MState ∅ [])).1 = Raise (KeyError "meta").
Proof.
  refine (proj1 (proj2 (malformed_envelope (new_client "key") OpProjects
            (const_upstream (Response 200 (Some (PyDict {["data" := PyList []]}))))
            (MState ∅ []) (Response 200 (Some (PyDict {["data" := PyList []]})))
            (PyDict {["data" := PyList []]}) eq_refl eq_refl eq_refl))
            {["data" := PyList []]} eq_refl _).
  vm_compute. reflexivity.
Defined.

(** X5: when the transport gets no response, the [RequestException] it
    raises is not caught: the run ends with it, with no document,
    [changed] false and the unanswered request the last one sent. That
    holds for the first request of a run and for the create request. *)
Theorem connection_failure_escapes (up : upstream) (p : params) :
  (up [] (first_request p) = None ->
   run up p =
     (Raise RequestException,
      MState {["changed" := PyBool false]} [first_request p]))
  /\
  (forall resp project,
     param_state p = present ->
     (call (client_of p) OpProjects up init).1 = Val resp ->
     find_project (param_project p) resp = Val project ->
     is_empty_dict project = false ->
     up [list_request p] (create_request p) = None ->
     run up p =
       (Raise RequestException,
        MState {["changed" := PyBool false]}
          [list_request p; create_request p])).
Proof.
  split.
  - intros Hup. apply first_crash; [|exact I].
    by rewrite (call_no_reply (client_of p) (first_op p) up init Hup).
  - intros resp project Hp Hlist Hfind Hempty Hup.
    rewrite (present_after_list up p resp Hp Hlist), Hfind, Hempty.
    apply create_crash; [|exact I].
    by rewrite (call_no_reply (client_of p) (create_op p) up (listed p) Hup).
Qed.

Lemma connection_failure_escapes_witness :
  run silent_upstream demo_create =
    (Raise RequestException,
     MState {["changed" := PyBool false]} [first_request demo_create]).
Proof.
  exact (proj1 (connection_failure_escapes silent_upstream demo_create)
           eq_refl).
Defined.

(** X6: when the message of an [ApiException] is not a string,
    formatting it into the failure message raises [TypeError]: the run
    ends with that exception and no failure document. That holds for the
    first call of a run and for the create call. *)
Theorem non_string_message_crashes (up : upstream) (p : params)
    (message : pyval) :
  (forall s, message <> PyStr s) ->
  ((call (client_of p) (first_op p) up init).1
     = Raise (ApiException message) ->
   run up p =
     (Raise TypeError,
      MState {["changed" := PyBool false]} [first_request p]))
  /\
  (forall resp project,
     param_state p = present ->
     (call (client_of p) OpProjects up init).1 = Val resp ->
     find_project (param_project p) resp = Val project ->
     is_empty_dict project = false ->
     (call (client_of p) (create_op p) up (listed p)).1
       = Raise (ApiException message) ->
     run up p =
       (Raise TypeError,
        MState {["changed" := PyBool false]}
          [list_request p; create_request p])).
Proof.
  intros Hns.
  assert (exn_str message = Raise TypeError) as Hstr.
  { destruct message; try reflexivity. by destruct (Hns s). }
  split.
  - intros H. by rewrite (first_api_error up p message H), Hstr.
  - intros resp project Hp Hlist Hfind Hempty H.
    rewrite (present_after_list up p resp Hp Hlist), Hfind, Hempty.
    by rewrite (create_api_error up p message H), Hstr.
Qed.

Lemma non_string_message_crashes_witness :
  run (const_upstream
         (Response 200 (Some (envelope (PyBool false) PyNone PyNone))))
    demo_delete =
    (Raise TypeError,
     MState {["changed" := PyBool false]} [first_request demo_delete]).
Proof.
  refine (proj1 (non_string_message_crashes
                   (const_upstream
                      (Response 200
                         (Some (envelope (PyBool false) PyNone PyNone))))
                   demo_delete PyNone _) _).
  - discriminate.
  - vm_compute. reflexivity.
Defined.

(** ** The data of the list response *)

(** X7: when the list call returns and its [data] is an empty list, an
    empty string or an empty dictionary, the loop has nothing to walk
    through: the run fails with "Unable to find project with id <id>"
    and sends no create request. *)
Theorem empty_listing_fails (up : upstream) (p : params) (resp : response)
    (data : pyval) :
  param_state p = present ->
  (call (client_of p) OpProjects up init).1 = Val resp ->
  data_field resp = Val data ->
  data = PyList [] \/ data = PyStr "" \/ data = PyDict ∅ ->
  run up p =
    (Raise (SystemExit
              (FailJson {["msg" := PyStr ("Unable to find project with id "
                                          ++ str_param (param_project p))]})),
     MState {["changed" := PyBool false]} [list_request p]).
Proof.
  intros Hp Hlist Hdata Hempty.
  rewrite (present_after_list up p resp Hp Hlist).
  unfold find_project. rewrite Hdata.
  by destruct Hempty as [->|[->| ->]].
Qed.

Lemma empty_listing_fails_witness :
  run (listing_upstream (PyList []) demo_creation) demo_create =
    (Raise (SystemExit
              (FailJson
                 {["msg" := PyStr "Unable to find project with id p1"]})),
     MState {["changed" := PyBool false]} [list_request demo_create]).
Proof.
  refine (empty_listing_fails (listing_upstream (PyList []) demo_creation)
            demo_create
            (Response 200
               (Some (envelope (PyBool true) (PyStr "ok") (PyList []))))
            (PyList []) eq_refl _ _ (or_introl eq_refl));
    vm_compute; reflexivity.
Defined.

(** X8: when the list call returns and its [data] is neither a list nor
    empty, the run ends with [TypeError] and no document: [None], a
    boolean and a number cannot be walked through, and walking through
    a string or a dictionary yields strings, which have no [_id]. *)
Theorem unlisted_data_crashes (up : upstream) (p : params) (resp : response)
    (data : pyval) :
  param_state p = present ->
  (call (client_of p) OpProjects up init).1 = Val resp ->
  data_field resp = Val data ->
  (forall records, data <> PyList records) ->
  data <> PyStr "" ->
  data <> PyDict ∅ ->
  run up p =
    (Raise TypeError, MState {["changed" := PyBool false]} [list_request p]).
Proof.
  intros Hp Hlist Hdata Hnl Hns Hnd.
  rewrite (present_after_list up p resp Hp Hlist).
  unfold find_project. rewrite Hdata. munfold.
  destruct data as [| | | |s|l|d]; try reflexivity.
  - destruct s as [|c s]; [done|]. reflexivity.
  - by destruct (Hnl l).
  - simpl. destruct (map_to_list d) as [|[k v] kvs] eqn:Hkvs.
    + apply map_to_list_empty_iff in Hkvs. by subst d.
    + reflexivity.
Qed.

Lemma unlisted_data_crashes_witness :
  run (listing_upstream PyNone demo_creation) demo_create =
    (Raise TypeError,
     MState {["changed" := PyBool false]} [list_request demo_create]).
Proof.
  refine (unlisted_data_crashes (listing_upstream PyNone demo_creation)
            demo_create
            (Response 200 (Some (envelope (PyBool true) (PyStr "ok") PyNone)))
            PyNone eq_refl _ _ _ _ _);
    first [ discriminate | vm_compute; reflexivity ].
Defined.

Lemma scan_stops wanted pre r post project e :
  Forall has_id pre ->
  getitem r "_id" = Raise e ->
  scan wanted (pre ++ r :: post) project = Raise e.
Proof.
  intros Hpre Hr. revert project.
  induction Hpre as [|x pre Hx _ IH]; intros project; simpl.
  - unfold matches. munfold. by rewrite Hr.
  - apply (has_id_matches wanted) in Hx as [found Hx]. rewrite Hx. simpl.
    apply IH.
Qed.

(** X9: the loop has no early exit, so one record without an [_id] ends
    the run with the exception its subscript raises, [KeyError] for a
    dictionary without the key, wherever the record stands in the list,
    even after the record of the requested project; no create request
    is sent. *)
Theorem record_without_id_crashes (up : upstream) (p : params)
    (resp : response) (pre post : list pyval) (r : pyval) (e : exn) :
  param_state p = present ->
  (call (client_of p) OpProjects up init).1 = Val resp ->
  data_field resp = Val (PyList (pre ++ r :: post)) ->
  Forall has_id pre ->
  getitem r "_id" = Raise e ->
  run up p =
    (Raise e, MState {["changed" := PyBool false]} [list_request p])
  /\ (forall d, r = PyDict d -> e = KeyError "_id").
Proof.
  intros Hp Hlist Hdata Hpre Hr. split.
  - rewrite (present_after_list up p resp Hp Hlist).
    unfold find_project. rewrite Hdata. munfold. simpl.
    by rewrite (scan_stops _ _ _ _ _ _ Hpre Hr).
  - intros d ->. simpl in Hr. destruct (d !! "_id"); congruence.
Qed.

Lemma record_without_id_crashes_witness :
  run (listing_upstream
         (PyList [PyDict {["_id" := PyStr "p1"]};
                  PyDict {["name" := PyStr "orphan"]}])
         demo_creation) demo_create =
    (Raise (KeyError "_id"),
     MState {["changed" := PyBool false]} [list_request demo_create]).
Proof.
  refine (proj1 (record_without_id_crashes
            (listing_upstream
               (PyList [PyDict {["_id" := PyStr "p1"]};
                        PyDict {["name" := PyStr "orphan"]}])
               demo_creation)
            demo_create
            (Response 200
               (Some (envelope (PyBool true) (PyStr "ok")
                        (PyList [PyDict {["_id" := PyStr "p1"]};
                                 PyDict {["name" := PyStr "orphan"]}]))))
            [PyDict {["_id" := PyStr "p1"]}] []
            (PyDict {["name" := PyStr "orphan"]}) (KeyError "_id")
            eq_refl _ _ _ _)).
  - vm_compute. reflexivity.
  - vm_compute. reflexivity.
  - repeat constructor. eexists. vm_compute. reflexivity.
  - vm_compute. reflexivity.
Defined.

(** ** An omitted project parameter *)

(** X10: when the [project] parameter is left out it is [None], which
    equals no identifier but [null]: if the list call returns project
    records whose [_id] is not [null], the run fails with "Unable to
    find project with id None" and sends no create request. *)
Theorem omitted_project_fails (up : upstream) (p : params) (resp : response)
    (records : list pyval) :
  param_state p = present ->
  param_project p = None ->
  (call (client_of p) OpProjects up init).1 = Val resp ->
  data_field resp = Val (PyList records) ->
  Forall (fun r => exists id, getitem r "_id" = Val id /\ id <> PyNone)
    records ->
  run up p =
    (Raise (SystemExit
              (FailJson
                 {["msg" := PyStr "Unable to find project with id None"]})),
     MState {["changed" := PyBool false]} [list_request p]).
Proof.
  intros Hp Hnone Hlist Hdata Hids.
  assert (Forall has_id records) as Hwf.
  { eapply Forall_impl; [exact Hids|]. intros r [id [Hr _]]. by exists id. }
  rewrite (present_scanned up p resp records Hp Hlist Hdata Hwf), Hnone.
  rewrite not_listed_existsb; [reflexivity|].
  unfold listed_in. rewrite Exists_exists. intros [r [Hin Hm]].
  rewrite Forall_forall in Hids. destruct (Hids r Hin) as [id [Hr Hid]].
  unfold matches in Hm. rewrite Hr in Hm. simpl in Hm.
  destruct id; try discriminate. by destruct Hid.
Qed.

Lemma omitted_project_fails_witness :
  run demo_upstream demo_create_any =
    (Raise (SystemExit
              (FailJson
                 {["msg" := PyStr "Unable to find project with id None"]})),
     MState {["changed" := PyBool false]} [list_request demo_create_any]).
Proof.
  refine (omitted_project_fails demo_upstream demo_create_any demo_listing
            demo_records eq_refl eq_refl _ _ _).
  - vm_compute. reflexivity.
  - vm_compute. reflexivity.
  - repeat constructor; eexists; (split; [vm_compute; reflexivity|]);
      discriminate.
Defined.

(** The create step sends the create request, whatever comes of it. *)
Lemma create_step_log up p :
  log ((create_branch (client_of p) p;; finish) up (listed p)).2 =
    [list_request p; create_request p].
Proof.
  unfold create_branch, finish. munfold. rewrite create_pair.
  destruct (call _ (create_op p) up _).1 as [cresp|[]]; cbn beta iota;
    repeat case_match; simplify_eq/=; reflexivity.
Qed.

(** X11: when the [project] parameter is left out and a listed project
    record has the [_id] [null], the loop takes that record for the
    requested project: the create request is sent, with [null] for
    [project] in its body. *)
Theorem omitted_project_matches_null (up : upstream) (p : params)
    (resp : response) (records : list pyval) :
  param_state p = present ->
  param_project p = None ->
  (call (client_of p) OpProjects up init).1 = Val resp ->
  data_field resp = Val (PyList records) ->
  Forall has_id records ->
  Exists (fun r => getitem r "_id" = Val PyNone) records ->
  log (run up p).2 = [list_request p; create_request p] /\
  exists body,
    json (create_request p) = Some (PyDict body) /\
    body !! "project" = Some PyNone.
Proof.
  intros Hp Hnone Hlist Hdata Hwf Hnull. split.
  - rewrite (present_scanned up p resp records Hp Hlist Hdata Hwf).
    assert (listed_in (param_project p) records) as Hin.
    { unfold listed_in. eapply Exists_impl; [exact Hnull|].
      intros r Hr. unfold matches. by rewrite Hr, Hnone. }
    apply existsb_listed_in in Hin. rewrite Hin. apply create_step_log.
  - eexists. split; [reflexivity|]. rewrite Hnone. by simplify_map_eq.
Qed.

Lemma omitted_project_matches_null_witness :
  log (run (listing_upstream (PyList [PyDict {["_id" := PyNone]}])
              demo_creation) demo_create_any).2 =
    [list_request demo_create_any; create_request demo_create_any].
Proof.
  refine (proj1 (omitted_project_matches_null
            (listing_upstream (PyList [PyDict {["_id" := PyNone]}])
               demo_creation)
            demo_create_any
            (Response 200
               (Some (envelope (PyBool true) (PyStr "ok")
                        (PyList [PyDict {["_id" := PyNone]}]))))
            [PyDict {["_id" := PyNone]}] eq_refl eq_refl _ _ _ _)).
  - vm_compute. reflexivity.
  - vm_compute. reflexivity.
  - repeat constructor. eexists. vm_compute. reflexivity.
  - constructor. vm_compute. reflexivity.
Defined.

(** ** The requests of a run *)

Lemma delete_not_create p : create_request p <> delete_request p.
Proof. discriminate. Qed.

Lemma list_not_create_request p : create_request p <> list_request p.
Proof. discriminate. Qed.

(** X12: a run sends the create request exactly when the state is
    [present], the list call has returned, and the loop over the [data]
    of its response has ended with a project other than the empty
    dictionary. *)
Theorem create_only_after_lookup (up : upstream) (p : params) :
  create_request p ∈ log (run up p).2 <->
  param_state p = present /\
  exists resp project,
    (call (client_of p) OpProjects up init).1 = Val resp /\
    find_project (param_project p) resp = Val project /\
    is_empty_dict project = false.
Proof.
  split.
  - intros Hin. destruct (param_state p) eqn:Hp.
    + split; [reflexivity|].
      destruct (call (client_of p) OpProjects up init).1 as [resp|e]
        eqn:Hlist.
      * rewrite (present_after_list up p resp Hp Hlist) in Hin.
        destruct (find_project (param_project p) resp) as [project|] eqn:Hf.
        -- destruct (is_empty_dict project) eqn:He; [|by eauto].
           apply list_elem_of_singleton in Hin.
           by destruct (list_not_create_request p).
        -- apply list_elem_of_singleton in Hin.
           by destruct (list_not_create_request p).
      * assert (log (run up p).2 = [list_request p]) as Hlog.
        { assert (first_op p = OpProjects) as Hop
            by (unfold first_op; by rewrite Hp).
          assert (first_request p = list_request p) as Hreq
            by (unfold first_request; by rewrite Hop).
          rewrite <- Hop in Hlist.
          destruct (call_raise _ _ _ _ _ Hlist) as [He|[message ->]].
          - by rewrite (first_crash up p e Hlist He), Hreq.
          - by rewrite (first_api_error up p message Hlist), Hreq. }
        rewrite Hlog in Hin. apply list_elem_of_singleton in Hin.
        by destruct (list_not_create_request p).
    + pose proof (shape_log _ _ _ (run_shape up p)) as Hs.
      unfold sends in Hs. rewrite Hp in Hs. rewrite Hs in Hin.
      apply list_elem_of_singleton in Hin.
      by destruct (delete_not_create p).
  - intros [Hp [resp [project [Hlist [Hf He]]]]].
    rewrite (present_after_list up p resp Hp Hlist), Hf, He.
    rewrite create_step_log. apply list_elem_of_further, list_elem_of_singleton.
    reflexivity.
Qed.

Lemma create_only_after_lookup_witness :
  create_request demo_create ∈ log (run demo_upstream demo_create).2.
Proof.
  apply (proj2 (create_only_after_lookup demo_upstream demo_create)).
  split; [reflexivity|].
  exists demo_listing, (PyDict {["_id" := PyStr "p1"]}).
  repeat split; vm_compute; reflexivity.
Defined.

(** X13: a run sends one or two requests and nothing else: in state
    [present] the list request, then possibly the create request; in
    state [absent] the delete request alone. *)
Theorem requests_of_a_run (up : upstream) (p : params) :
  sends p (log (run up p).2) /\
  1 <= length (log (run up p).2) <= 2 /\
  head (log (run up p).2) = Some (first_request p).
Proof.
  pose proof (shape_log _ _ _ (run_shape up p)) as Hs.
  split; [exact Hs|].
  unfold sends in Hs. unfold first_request, first_op.
  destruct (param_state p); [destruct Hs as [-> | ->]|rewrite Hs];
    simpl; (split; [lia | reflexivity]).
Qed.

(** ** How a run ends *)

(** X14: a run never returns: it ends in an exception, which is a crash
    or the exit of [exit_json] or [fail_json]. An [ApiException] never
    escapes the handler. *)
Theorem handler_always_leaves (up : upstream) (p : params) :
  exists e,
    (run up p).1 = Raise e /\
    (crash e \/ exists out, e = SystemExit out) /\
    (forall message, e <> ApiException message).
Proof.
  destruct (run_shape up p) as [e ? He| | | | |? ? e ? ? ? He| |];
    eexists; (split; [reflexivity|]); unfold failure;
    (split; [eauto|]); intros m Hm; try discriminate;
    subst e; destruct He.
Qed.

(** X15: the document a run exits with is [{changed: True, vm, message}]
    after the two requests of state [present], or
    [{changed: True, message}] after the delete request of state
    [absent]; and [changed] is true in [result] exactly when the run
    ends in [exit_json]. The module never exits reporting no change. *)
Theorem exit_documents (up : upstream) (p : params) :
  (forall kwargs,
     (run up p).1 = Raise (SystemExit (ExitJson kwargs)) ->
     (param_state p = present /\
      log (run up p).2 = [list_request p; create_request p] /\
      exists vm message,
        kwargs = {["changed" := PyBool true; "vm" := vm;
                   "message" := message]})
     \/
     (param_state p = absent /\
      log (run up p).2 = [delete_request p] /\
      exists message,
        kwargs = {["changed" := PyBool true; "message" := message]}))
  /\
  (result (run up p).2 !! "changed" = Some (PyBool true) <->
   exists kwargs, (run up p).1 = Raise (SystemExit (ExitJson kwargs))).
Proof.
  split.
  - intros kwargs Hexit.
    destruct (run_shape up p) as [e ? He| | | | |? ? e ? ? ? He| |];
      unfold failure in Hexit; simpl in Hexit |- *;
      try discriminate;
      try (injection Hexit as ->; by destruct He);
      injection Hexit as <-; [left|right]; eauto.
  - destruct (run_shape up p) as [e ? He| | | | |? ? e ? ? ? He| |];
      unfold failure, listed, unchanged; simpl;
      (split; [intros Hc| intros [kwargs Hexit]]);
      try (by simplify_map_eq); try discriminate; eauto;
      injection Hexit as ->; destruct He.
Qed.

Lemma exit_documents_witness :
  result (run demo_upstream demo_delete).2 !! "changed" = Some (PyBool true).
Proof.
  apply (proj2 (proj2 (exit_documents demo_upstream demo_delete))).
  eexists. vm_compute. reflexivity.
Defined.

(** X16: state [absent] reads the API key and the VM id only, and state
    [present] reads everything but the VM id: two invocations that
    agree on what the state reads run alike against the same server. *)
Theorem unread_parameters (up : upstream) (p q : params) :
  (param_state p = absent -> param_state q = absent ->
   same_delete p q -> run up p = run up q)
  /\
  (param_state p = present -> param_state q = present ->
   same_create p q -> run up p = run up q).
Proof.
  destruct p, q. unfold same_delete, same_create. simpl.
  split; intros -> ->; intros; destruct_and?; subst; reflexivity.
Qed.

Lemma unread_parameters_witness :
  run demo_upstream demo_delete =
  run demo_upstream
    (Params "key" (Some "v1") (Some "h") (Some "p1") (Some "v1.small")
       (Some "debian") (Some "dfw") absent).
Proof.
  refine (proj1 (unread_parameters demo_upstream demo_delete
                   (Params "key" (Some "v1") (Some "h") (Some "p1")
                      (Some "v1.small") (Some "debian") (Some "dfw") absent))
            eq_refl eq_refl _).
  split; reflexivity.
Defined.

(** ** From the answer of the server to the document *)

(** X17: when the server answers the first request of a run with a
    status code other than 200, the run fails with the prefix of the
    step followed by "API returned HTTP <code>"; and so does the create
    step, with its prefix, when the create request is so answered.
    Nothing is sent after the failed request and [changed] is false. *)
Theorem status_failure_reported (up : upstream) (p : params) (code : Z)
    (body : option pyval) :
  code <> 200%Z ->
  (up [] (first_request p) = Some (Response code body) ->
   run up p =
     (Raise (SystemExit
               (FailJson {["msg" := PyStr (first_prefix p
                                           ++ "API returned HTTP "
                                           ++ str_int code)]})),
      MState {["changed" := PyBool false]} [first_request p]))
  /\
  (forall resp project,
     param_state p = present ->
     (call (client_of p) OpProjects up init).1 = Val resp ->
     find_project (param_project p) resp = Val project ->
     is_empty_dict project = false ->
     up [list_request p] (create_request p) = Some (Response code body) ->
     run up p =
       (Raise (SystemExit
                 (FailJson {["msg" := PyStr ("Unable to create VM: "
                                             ++ "API returned HTTP "
                                             ++ str_int code)]})),
        MState {["changed" := PyBool false]}
          [list_request p; create_request p])).
Proof.
  intros Hne. split.
  - intros Hup.
    rewrite (first_api_error up p
               (PyStr ("API returned HTTP " ++ str_int code)));
      [reflexivity|].
    by rewrite (call_status (client_of p) (first_op p) up init _ Hup Hne).
  - intros resp project Hp Hlist Hf He Hup.
    rewrite (present_after_list up p resp Hp Hlist), Hf, He.
    rewrite (create_api_error up p
               (PyStr ("API returned HTTP " ++ str_int code)));
      [reflexivity|].
    by rewrite (call_status (client_of p) (create_op p) up (listed p) _
                  Hup Hne).
Qed.

Lemma status_failure_reported_witness :
  run (const_upstream (Response 401 None)) demo_delete =
    (Raise (SystemExit
              (FailJson
                 {["msg" := PyStr "Unable to delete VM: API returned HTTP 401"]})),
     MState {["changed" := PyBool false]} [first_request demo_delete]).
Proof.
  refine (proj1 (status_failure_reported (const_upstream (Response 401 None))
                   demo_delete 401 None _) eq_refl).
  discriminate.
Defined.

(** X18: when the server answers the first request of a run with status
    200, a false success flag and a string for message, the run fails
    with the prefix of the step followed by that message; and so does
    the create step, with its prefix. *)
Theorem refusal_reported (up : upstream) (p : params) (refused : response)
    (success : pyval) (m : string) :
  status_code refused = 200%Z ->
  meta_field refused "success" = Val success ->
  truthy success = false ->
  meta_field refused "message" = Val (PyStr m) ->
  (up [] (first_request p) = Some refused ->
   run up p =
     (Raise (SystemExit
               (FailJson {["msg" := PyStr (first_prefix p ++ m)]})),
      MState {["changed" := PyBool false]} [first_request p]))
  /\
  (forall resp project,
     param_state p = present ->
     (call (client_of p) OpProjects up init).1 = Val resp ->
     find_project (param_project p) resp = Val project ->
     is_empty_dict project = false ->
     up [list_request p] (create_request p) = Some refused ->
     run up p =
       (Raise (SystemExit
                 (FailJson {["msg" := PyStr ("Unable to create VM: " ++ m)]})),
        MState {["changed" := PyBool false]}
          [list_request p; create_request p])).
Proof.
  intros H200 Hs Ht Hm. split.
  - intros Hup.
    rewrite (first_api_error up p (PyStr m)); [reflexivity|].
    by rewrite (call_refused (client_of p) (first_op p) up init _ _ _
                  Hup H200 Hs Ht Hm).
  - intros resp project Hp Hlist Hf He Hup.
    rewrite (present_after_list up p resp Hp Hlist), Hf, He.
    rewrite (create_api_error up p (PyStr m)); [reflexivity|].
    by rewrite (call_refused (client_of p) (create_op p) up (listed p) _ _ _
                  Hup H200 Hs Ht Hm).
Qed.

Lemma refusal_reported_witness :
  run (const_upstream (refusal "Invalid API key")) demo_create =
    (Raise (SystemExit
              (FailJson
                 {["msg" := PyStr "Unable to get projects: Invalid API key"]})),
     MState {["changed" := PyBool false]} [first_request demo_create]).
Proof.
  refine (proj1 (refusal_reported (const_upstream (refusal "Invalid API key"))
                   demo_create (refusal "Invalid API key") (PyBool false)
                   "Invalid API key" eq_refl _ eq_refl _) eq_refl);
    vm_compute; reflexivity.
Defined.



(** X20: from the answers of the server to the document. In state
    [present], when the server answers the list request with status 200,
    a true success flag and project records among which the requested
    one is, and the create request with status 200, a true success flag,
    a [data] and a [message], the run exits with
    [{changed: True, vm: data, message}]. In state [absent], when the
    server answers the delete request with status 200, a true success
    flag and a [message], the run exits with
    [{changed: True, message}]. *)
Theorem success_end_to_end (up : upstream) (p : params) :
  (forall listing creation records vm message flag1 flag2,
     param_state p = present ->
     up [] (list_request p) = Some listing ->
     status_code listing = 200%Z ->
     meta_field listing "success" = Val flag1 -> truthy flag1 = true ->
     data_field listing = Val (PyList records) ->
     Forall has_id records ->
     listed_in (param_project p) records ->
     up [list_request p] (create_request p) = Some creation ->
     status_code creation = 200%Z ->
     meta_field creation "success" = Val flag2 -> truthy flag2 = true ->
     data_field creation = Val vm ->
     meta_field creation "message" = Val message ->
     run up p =
       (Raise (SystemExit
                 (ExitJson {["changed" := PyBool true; "vm" := vm;
                             "message" := message]})),
        MState {["changed" := PyBool true; "vm" := vm; "message" := message]}
          [list_request p; create_request p]))
  /\
  (forall deletion message flag,
     param_state p = absent ->
     up [] (delete_request p) = Some deletion ->
     status_code deletion = 200%Z ->
     meta_field deletion "success" = Val flag -> truthy flag = true ->
     meta_field deletion "message" = Val message ->
     run up p =
       (Raise (SystemExit
                 (ExitJson {["changed" := PyBool true;
                             "message" := message]})),
        MState {["changed" := PyBool true; "message" := message]}
          [delete_request p])).
Proof.
  split.
  - intros listing creation records vm message flag1 flag2 Hp Hup1 H1 Hs1
      Ht1 Hdata Hwf Hin Hup2 H2 Hs2 Ht2 Hvm Hmsg.
    assert ((call (client_of p) OpProjects up init).1 = Val listing) as Hlist
      by (by rewrite (call_ok (client_of p) OpProjects up init listing flag1
                        Hup1 H1 Hs1 Ht1)).
    assert ((call (client_of p) (create_op p) up (listed p)).1 = Val creation)
      as Hcreate
      by (by rewrite (call_ok (client_of p) (create_op p) up (listed p)
                        creation flag2 Hup2 H2 Hs2 Ht2)).
    rewrite (present_scanned up p listing records Hp Hlist Hdata Hwf).
    apply existsb_listed_in in Hin. rewrite Hin.
    exact (create_done up p creation vm message Hcreate Hvm Hmsg).
  - intros deletion message flag Hp Hup H200 Hs Ht Hmsg.
    apply (delete_done up p deletion message Hp); [|exact Hmsg].
    by rewrite (call_ok (client_of p) (delete_op p) up init deletion flag
                  Hup H200 Hs Ht).
Qed.

Lemma success_end_to_end_witness :
  run demo_upstream demo_delete =
    (Raise (SystemExit
              (ExitJson {["changed" := PyBool true;
                          "message" := PyStr "VM deleted"]})),
     MState {["changed" := PyBool true; "message" := PyStr "VM deleted"]}
       [delete_request demo_delete]).
Proof.
  refine (proj2 (success_end_to_end demo_upstream demo_delete)
            demo_deletion (PyStr "VM deleted") (PyBool true)
            eq_refl eq_refl eq_refl _ eq_refl _);
    vm_compute; reflexivity.
Defined.

(** ** The test of the loop *)

(** X21: the loop takes a record for the requested project exactly when
    the record is a dictionary whose [_id] is the requested id itself,
    a string, or [null] when the parameter is left out: an identifier
    of another type, such as a number, is never equal to it. *)
Theorem record_matches_iff (wanted : option string) (r : pyval) :
  matches wanted r = Val true <->
  exists d, r = PyDict d /\ d !! "_id" = Some (of_param wanted).
Proof.
  unfold matches, getitem. munfold. split.
  - destruct r as [| | | | | |d]; try discriminate.
    destruct (d !! "_id") as [id|] eqn:Hid; [|discriminate].
    intros [= H]. apply eq_param_of_param in H. subst id. eauto.
  - intros [d [-> Hid]]. rewrite Hid. f_equal.
    by apply eq_param_of_param.
Qed.

Lemma record_matches_iff_witness :
  matches (Some "5") (PyDict {["_id" := PyInt 5]}) <> Val true.
Proof.
  intros H.
  apply (proj1 (record_matches_iff (Some "5") (PyDict {["_id" := PyInt 5]})))
    in H.
  destruct H as [d [Hd Hid]]. injection Hd as <-.
  vm_compute in Hid. discriminate.
Defined.
